(** * VRM_List_License: metadata adaptation and rule matching of list_license.py

    A shallow embedding of the pure core of [list_license.py]: the value
    normaliser, the two metadata adapters ([VRM0xMeta], [VRM1Meta]) and the
    folder-sorting pass ([sort_files_by_mapdata]), then the reading of the
    container ([VRMFile.load]), [canonicalize], [prepare_mapdata] and the CSV
    row, followed by the properties established about them.

    Modelling conventions.
    - A value produced by [json.load] is a [pyval]: [None], [bool], [int],
      [float], [str], [list] or [dict].  A [dict] is the list of its items in
      insertion order.
    - A [str] is a [string] whose characters are the code points U+0000 to
      U+00FF; [isspace] and [lower_char] are the tables of CPython's
      [str.isspace] and [str.lower] on that range.
    - A [float] is a dyadic rational, an infinity, or the NaN that
      [json.load] returns for the literal NaN: one object, the same at every
      occurrence, so that it is identical to itself without being equal to
      itself.
    - A raised exception is the [Raise] case of [result]; the code catches
      none of them outside [VRMFile.load].
    - The file system is outside the model: a move is an entry appended to a
      log, and [os.makedirs] / [shutil.move] succeed on every [str]
      destination. *)

From Stdlib Require Import String Ascii List ZArith NArith Bool Arith Lia.
Import ListNotations.
Open Scope string_scope.

Set Warnings "-register-all".

(** ** Exceptions *)

Inductive exn : Type :=
| AttributeError
| TypeError
| ValueError
| KeyError
| IndexError.

Inductive result (A : Type) : Type :=
| Ok (a : A)
| Raise (e : exn).

Arguments Ok {A} a.
Arguments Raise {A} e.

Definition bind {A B : Type} (r : result A) (k : A -> result B) : result B :=
  match r with
  | Ok a => k a
  | Raise e => Raise e
  end.

Notation "x <- r ;; k" := (bind r (fun x => k))
  (at level 61, r at next level, right associativity).
Notation "' p <- r ;; k" := (bind r (fun x => match x with p => k end))
  (at level 61, p pattern, r at next level, right associativity).

(** ** Strings *)

Module PyStr.

(** [str.isspace] on U+0000..U+00FF. *)
Definition isspace (c : ascii) : bool :=
  let n := N_of_ascii c in
  (((9 <=? n) && (n <=? 13)) || ((28 <=? n) && (n <=? 32))
   || (n =? 133) || (n =? 160))%N.

(** [str.lower] on one code point of U+0000..U+00FF: A-Z and the
    capital letters U+00C0..U+00DE (the sign U+00D7 apart) move up by 32. *)
Definition lower_char (c : ascii) : ascii :=
  let n := N_of_ascii c in
  if (((65 <=? n) && (n <=? 90))
      || ((192 <=? n) && (n <=? 222) && negb (n =? 215)))%N
  then ascii_of_N (n + 32) else c.

Fixpoint lower (s : string) : string :=
  match s with
  | EmptyString => EmptyString
  | String c r => String (lower_char c) (lower r)
  end.

Fixpoint lstrip (s : string) : string :=
  match s with
  | EmptyString => EmptyString
  | String c r => if isspace c then lstrip r else s
  end.

Fixpoint rstrip (s : string) : string :=
  match s with
  | EmptyString => EmptyString
  | String c r =>
      match rstrip r with
      | EmptyString => if isspace c then EmptyString else String c EmptyString
      | r' => String c r'
      end
  end.

(** [s.strip()] *)
Definition strip (s : string) : string := rstrip (lstrip s).

(** [c in s] for a single character *)
Fixpoint has_char (c : ascii) (s : string) : bool :=
  match s with
  | EmptyString => false
  | String d r => Ascii.eqb c d || has_char c r
  end.

(** [needle in s] for strings *)
Fixpoint contains (s needle : string) : bool :=
  prefix needle s
  || match s with
     | EmptyString => false
     | String _ r => contains r needle
     end.

(** The characters of a string, each as a string of length one. *)
Fixpoint chars (s : string) : list string :=
  match s with
  | EmptyString => []
  | String c r => String c EmptyString :: chars r
  end.

(** [sep.join(xs)] *)
Fixpoint join (sep : string) (xs : list string) : string :=
  match xs with
  | [] => EmptyString
  | [x] => x
  | x :: rest => x ++ sep ++ join sep rest
  end.

(** [s.replace(c, d)] for single characters *)
Fixpoint replace_char (c d : ascii) (s : string) : string :=
  match s with
  | EmptyString => EmptyString
  | String e r => String (if Ascii.eqb e c then d else e) (replace_char c d r)
  end.

(** [s.replace(c, "")] *)
Fixpoint remove_char (c : ascii) (s : string) : string :=
  match s with
  | EmptyString => EmptyString
  | String e r => if Ascii.eqb e c then remove_char c r else String e (remove_char c r)
  end.

(** [s.split(c)]: never empty, the pieces between the occurrences of [c]. *)
Fixpoint split (c : ascii) (s : string) : list string :=
  match s with
  | EmptyString => [EmptyString]
  | String e r =>
      if Ascii.eqb e c then EmptyString :: split c r
      else match split c r with
           | [] => [String e EmptyString]
           | p :: ps => String e p :: ps
           end
  end.

(** [s.split(c, 1)] as a pair: [None] when [c] does not occur. *)
Fixpoint split1 (c : ascii) (s : string) : option (string * string) :=
  match s with
  | EmptyString => None
  | String e r =>
      if Ascii.eqb e c then Some (EmptyString, r)
      else match split1 c r with
           | Some (a, b) => Some (String e a, b)
           | None => None
           end
  end.

End PyStr.

(** ** Values *)

(** A [float] up to [==]: the dyadic [m * 2^e], plus or minus infinity, or
    the NaN of the JSON decoder. *)
Inductive pyfloat : Type :=
| FFin (m e : Z)
| FInf (negative : bool)
| FNaN.

Inductive pyval : Type :=
| PNone
| PBool (b : bool)
| PInt (z : Z)
| PFloat (f : pyfloat)
| PStr (s : string)
| PList (l : list pyval)
| PDict (d : list (string * pyval)).

Definition pydict : Type := list (string * pyval).

(** [m1 * 2^e1 == m2 * 2^e2], compared exactly at the smaller exponent. *)
Definition float_eq (x y : pyfloat) : bool :=
  match x, y with
  | FFin m1 e1, FFin m2 e2 =>
      let e := Z.min e1 e2 in
      (m1 * 2 ^ (e1 - e) =? m2 * 2 ^ (e2 - e))%Z
  | FInf a, FInf b => Bool.eqb a b
  | _, _ => false
  end.

(** The numeric tower: [bool] is a subtype of [int], and [int] compares with
    [float] by value. *)
Definition as_number (v : pyval) : option pyfloat :=
  match v with
  | PBool b => Some (FFin (if b then 1 else 0) 0)
  | PInt z => Some (FFin z 0)
  | PFloat f => Some f
  | _ => None
  end.

(** [d.get(k)] as an option, [k in d], and [d.get(k, default)]. *)
Fixpoint lookup (d : pydict) (k : string) : option pyval :=
  match d with
  | [] => None
  | (k', v) :: rest => if String.eqb k k' then Some v else lookup rest k
  end.

Definition has_key (d : pydict) (k : string) : bool :=
  match lookup d k with Some _ => true | None => false end.

Definition dict_get (d : pydict) (k : string) (default : pyval) : pyval :=
  match lookup d k with Some v => v | None => default end.

(** The NaN of the JSON decoder, the one float that is not equal to
    itself. *)
Definition is_nan (v : pyval) : bool :=
  match v with PFloat FNaN => true | _ => false end.

(** [a == b].  The items of two lists and the values of two dicts are
    compared as [x is y or x == y]: two values are the same object, without
    being equal, when both are the NaN. *)
Fixpoint py_eq (a b : pyval) {struct a} : bool :=
  match a with
  | PNone => match b with PNone => true | _ => false end
  | PStr s => match b with PStr t => String.eqb s t | _ => false end
  | PList l =>
      match b with
      | PList l' =>
          (fix go (l l' : list pyval) {struct l} : bool :=
             match l, l' with
             | [], [] => true
             | x :: r, y :: r' =>
                 ((is_nan x && is_nan y) || py_eq x y) && go r r'
             | _, _ => false
             end) l l'
      | _ => false
      end
  | PDict d =>
      match b with
      | PDict d' =>
          Nat.eqb (List.length d) (List.length d')
          && (fix all (d : pydict) {struct d} : bool :=
                match d with
                | [] => true
                | (k, v) :: r =>
                    match lookup d' k with
                    | Some v' => (is_nan v && is_nan v') || py_eq v v'
                    | None => false
                    end && all r
                end) d
      | _ => false
      end
  | PBool _ | PInt _ | PFloat _ =>
      match as_number a, as_number b with
      | Some x, Some y => float_eq x y
      | _, _ => false
      end
  end.

(** [a is b or a == b], the test of [in] on a list and of the members of a
    set. *)
Definition py_same (a b : pyval) : bool :=
  (is_nan a && is_nan b) || py_eq a b.

(** [bool(v)] *)
Definition truthy (v : pyval) : bool :=
  match v with
  | PNone => false
  | PBool b => b
  | PInt z => negb (z =? 0)%Z
  | PFloat (FFin m _) => negb (m =? 0)%Z
  | PFloat (FInf _) => true
  | PFloat FNaN => true
  | PStr s => negb (String.eqb s "")
  | PList l => match l with [] => false | _ => true end
  | PDict d => match d with [] => false | _ => true end
  end.

Definition is_none (v : pyval) : bool :=
  match v with PNone => true | _ => false end.

(** [v.get(k, default)]: only a [dict] has the method. *)
Definition get (v : pyval) (k : string) (default : pyval) : result pyval :=
  match v with
  | PDict d => Ok (dict_get d k default)
  | _ => Raise AttributeError
  end.

(** [v[k]] for a [str] key. *)
Definition getitem (v : pyval) (k : string) : result pyval :=
  match v with
  | PDict d => match lookup d k with Some x => Ok x | None => Raise KeyError end
  | _ => Raise TypeError
  end.

(** [k in v] for a [str] key. *)
Definition contains (v : pyval) (k : string) : result bool :=
  match v with
  | PDict d => Ok (has_key d k)
  | PList l => Ok (existsb (py_eq (PStr k)) l)
  | PStr s => Ok (PyStr.contains s k)
  | _ => Raise TypeError
  end.

(** [for x in v]: the elements of a list, the keys of a dict, the characters
    of a string. *)
Definition iterate (v : pyval) : result (list pyval) :=
  match v with
  | PList l => Ok l
  | PDict d => Ok (map (fun kv => PStr (fst kv)) d)
  | PStr s => Ok (map PStr (PyStr.chars s))
  | _ => Raise TypeError
  end.

(** [v.items()] *)
Definition items (v : pyval) : result pydict :=
  match v with
  | PDict d => Ok d
  | _ => Raise AttributeError
  end.

(** ** Utility functions *)

Definition normalize_for_compare (value : pyval) : pyval :=
  match value with
  | PStr s =>
      let v := PyStr.lower (PyStr.strip s) in
      if String.eqb v "true" then PBool true
      else if String.eqb v "false" then PBool false
      else PStr v
  | _ => value
  end.

(** ** urllib.parse

    The two library calls of [VRM0xMeta.get_license_info], after CPython
    3.11's [urllib/parse.py].  Two parts of the library stay abstract: the
    decoding of percent escapes (UTF-8 with replacement), and the validation
    of a host that has brackets or characters beyond ASCII.  The first is
    reached only by a string with a percent sign, the second only by such a
    host. *)

Section Urllib.

(** [unquote(s)] for an [s] that has a percent sign. *)
Variable percent_decode : string -> string.

(** [_check_bracketed_netloc(netloc)] returns (instead of raising). *)
Variable check_bracketed_netloc : string -> bool.

(** [_checknetloc(netloc)] returns, for a [netloc] that is not ASCII. *)
Variable checknetloc : string -> bool.

Definition c0_control_or_space (c : ascii) : bool :=
  (N_of_ascii c <=? 32)%N.

Fixpoint lstrip_c0 (s : string) : string :=
  match s with
  | EmptyString => EmptyString
  | String c r => if c0_control_or_space c then lstrip_c0 r else s
  end.

Definition ascii_alpha (c : ascii) : bool :=
  let n := N_of_ascii c in
  (((65 <=? n) && (n <=? 90)) || ((97 <=? n) && (n <=? 122)))%N.

Definition scheme_char (c : ascii) : bool :=
  let n := N_of_ascii c in
  (ascii_alpha c || ((48 <=? n) && (n <=? 57))
   || (n =? 43) || (n =? 45) || (n =? 46))%N.

Fixpoint all_chars (p : ascii -> bool) (s : string) : bool :=
  match s with
  | EmptyString => true
  | String c r => p c && all_chars p r
  end.

(** The scheme prefix of [urlsplit]: what is left of the url once a
    well-formed [scheme:] has been taken off. *)
Definition strip_scheme (url : string) : string :=
  match PyStr.split1 ":" url with
  | Some (String c0 pre, rest) =>
      if ascii_alpha c0 && all_chars scheme_char (String c0 pre)
      then rest else url
  | _ => url
  end.

(** [_splitnetloc(url, 0)] on the text after the two slashes. *)
Fixpoint splitnetloc (s : string) : string * string :=
  match s with
  | EmptyString => (EmptyString, EmptyString)
  | String c r =>
      if Ascii.eqb c "/" || Ascii.eqb c "?" || Ascii.eqb c "#"
      then (EmptyString, s)
      else let (n, rest) := splitnetloc r in (String c n, rest)
  end.

Definition isascii (s : string) : bool :=
  all_chars (fun c => (N_of_ascii c <? 128)%N) s.

(** [urlparse(url).query] for a [str] url. *)
Definition urlsplit_query (url : string) : result string :=
  let url := lstrip_c0 url in
  let url := PyStr.remove_char "010"
               (PyStr.remove_char "013" (PyStr.remove_char "009" url)) in
  let url := strip_scheme url in
  '(netloc, url) <-
     match url with
     | String "/" (String "/" after) =>
         let (netloc, rest) := splitnetloc after in
         let lb := PyStr.has_char "[" netloc in
         let rb := PyStr.has_char "]" netloc in
         if (lb && negb rb) || (rb && negb lb) then Raise ValueError
         else if lb && rb && negb (check_bracketed_netloc netloc)
              then Raise ValueError
              else Ok (netloc, rest)
     | _ => Ok (EmptyString, url)
     end ;;
  let url := match PyStr.split1 "#" url with
             | Some (before, _) => before
             | None => url
             end in
  let query := match PyStr.split1 "?" url with
               | Some (_, q) => q
               | None => EmptyString
               end in
  if String.eqb netloc "" || isascii netloc || checknetloc netloc
  then Ok query else Raise ValueError.

(** [urlparse(v).query] for any value: a value that is not a [str] has no
    [decode]. *)
Definition urlparse_query (v : pyval) : result string :=
  match v with
  | PStr url => urlsplit_query url
  | _ => Raise AttributeError
  end.

Definition unquote (s : string) : string :=
  if PyStr.has_char "%" s then percent_decode s else s.

(** [parse_qsl(qs)] with its default arguments: blank values are dropped. *)
Definition parse_qsl (qs : string) : list (string * string) :=
  let query_args := if String.eqb qs "" then [] else PyStr.split "&" qs in
  flat_map
    (fun name_value =>
       if String.eqb name_value "" then []
       else match PyStr.split1 "=" name_value with
            | None => []
            | Some (n, v) =>
                if String.eqb v "" then []
                else [(unquote (PyStr.replace_char "+" " " n),
                       unquote (PyStr.replace_char "+" " " v))]
            end)
    query_args.

Fixpoint qs_append (d : list (string * list string)) (name value : string)
  : list (string * list string) :=
  match d with
  | [] => [(name, [value])]
  | (k, vs) :: r =>
      if String.eqb name k then (k, (vs ++ [value])%list) :: r
      else (k, vs) :: qs_append r name value
  end.

(** [parse_qs(qs)] *)
Definition parse_qs (qs : string) : list (string * list string) :=
  fold_left (fun d nv => qs_append d (fst nv) (snd nv)) (parse_qsl qs) [].

Fixpoint qs_get (d : list (string * list string)) (k : string)
  (default : list string) : list string :=
  match d with
  | [] => default
  | (k', vs) :: r => if String.eqb k k' then vs else qs_get r k default
  end.

(** [l[0]] *)
Definition first (l : list string) : result string :=
  match l with
  | x :: _ => Ok x
  | [] => Raise IndexError
  end.

(** ** VRM 0.x meta parser *)

(** [VRM0xMeta(json_data, file_name)]: the [meta] attribute. *)
Definition VRM0xMeta_init (json_data : pyval) : result pyval :=
  ext <- getitem json_data "extensions" ;;
  vrm <- getitem ext "VRM" ;;
  getitem vrm "meta".

Definition VRM0xMeta_get_license_info (meta : pyval) (file_name : string)
  : result pydict :=
  model_name <- get meta "title" (PStr "--") ;;
  author <- get meta "author" (PStr "--") ;;
  contact <- get meta "contactInformation" (PStr "--") ;;
  reference_url <- get meta "reference" (PStr "--") ;;
  commercial_usage <- get meta "commercialUssageName" (PStr "--") ;;
  other_permission_url <- get meta "otherPermissionUrl" (PStr "") ;;
  redistribution <-
    (if truthy other_permission_url then
       query <- urlparse_query other_permission_url ;;
       let qs := parse_qs query in
       first (qs_get qs "redistribution" ["--"])
     else Ok "--") ;;
  credit_notation <- get meta "creditNotation" (PStr "--") ;;
  modification <- get meta "modification" (PStr "--") ;;
  avatar_permission <- get meta "allowedUserName" (PStr "--") ;;
  sexual_expression <- get meta "sexualUssageName" (PStr "--") ;;
  violence_expression <- get meta "violentUssageName" (PStr "--") ;;
  license <- get meta "licenseName" (PStr "--") ;;
  other_permission_url' <- get meta "otherPermissionUrl" (PStr "--") ;;
  other_license_url <- get meta "otherLicenseUrl" (PStr "--") ;;
  Ok [ ("file_name", PStr file_name);
       ("vrm_version", PStr "0.x");
       ("model_name", model_name);
       ("author", author);
       ("contact", contact);
       ("reference_url", reference_url);
       ("commercial_usage", commercial_usage);
       ("redistribution", PStr redistribution);
       ("credit_notation", credit_notation);
       ("modification", modification);
       ("avatar_permission", avatar_permission);
       ("sexual_expression", sexual_expression);
       ("violence_expression", violence_expression);
       ("license", license);
       ("other_permission_url", other_permission_url');
       ("other_license_url", other_license_url) ].

End Urllib.

(** ** VRM 1.0 meta parser *)

Definition VRM1Meta_init (json_data : pyval) : result pyval :=
  ext <- getitem json_data "extensions" ;;
  vrm <- getitem ext "VRMC_vrm" ;;
  getitem vrm "meta".

(** The items of an iterable, when every one of them is a [str]. *)
Fixpoint all_str (l : list pyval) : result (list string) :=
  match l with
  | [] => Ok []
  | PStr s :: r => ss <- all_str r ;; Ok (s :: ss)
  | _ :: _ => Raise TypeError
  end.

(** [sep.join(v)] *)
Definition str_join (sep : string) (v : pyval) : result string :=
  xs <- iterate v ;;
  ss <- all_str xs ;;
  Ok (PyStr.join sep ss).

(** The three boolean permissions: [None] stands for a missing key. *)
Definition allowed_or_not (v : pyval) : pyval :=
  if is_none v then PStr "--"
  else PStr (if truthy v then "Allowed" else "Not allowed").

Definition VRM1Meta_get_license_info (meta : pyval) (file_name : string)
  : result pydict :=
  model_name <- get meta "name" (PStr "--") ;;
  authors <- get meta "authors" (PList [PStr "--"]) ;;
  author <- str_join ", " authors ;;
  commercial_usage <- get meta "commercialUsage" (PStr "--") ;;
  allow_redist <- get meta "allowRedistribution" PNone ;;
  credit_notation <- get meta "creditNotation" (PStr "--") ;;
  modification <- get meta "modification" (PStr "--") ;;
  avatar_permission <- get meta "avatarPermission" (PStr "--") ;;
  sexual_usage <- get meta "allowExcessivelySexualUsage" PNone ;;
  violent_usage <- get meta "allowExcessivelyViolentUsage" PNone ;;
  license <- get meta "licenseUrl" (PStr "--") ;;
  Ok [ ("file_name", PStr file_name);
       ("vrm_version", PStr "1.0");
       ("model_name", model_name);
       ("author", PStr author);
       ("contact", PStr "--");
       ("reference_url", PStr "--");
       ("commercial_usage", commercial_usage);
       ("redistribution", allowed_or_not allow_redist);
       ("credit_notation", credit_notation);
       ("modification", modification);
       ("avatar_permission", avatar_permission);
       ("sexual_expression", allowed_or_not sexual_usage);
       ("violence_expression", allowed_or_not violent_usage);
       ("license", license);
       ("other_permission_url", PStr "--");
       ("other_license_url", PStr "--") ].

(** ** VRM file *)

(** The attributes of a [VRMFile] that the callers read. *)
Record VRMFile : Type := {
  path : string;
  json_data : pyval;
  vrm_version : pyval
}.

(** The version test at the end of [VRMFile.load]. *)
Definition detect_version (json_data : pyval) : result string :=
  has_ext <- contains json_data "extensions" ;;
  if has_ext then
    ext <- getitem json_data "extensions" ;;
    is_0x <- contains ext "VRM" ;;
    if is_0x then Ok "0.x"
    else
      ext <- getitem json_data "extensions" ;;
      is_1 <- contains ext "VRMC_vrm" ;;
      if is_1 then Ok "1.0" else Raise ValueError
  else Raise ValueError.

(** [VRMFile(path).load()].  [parsed] is the JSON chunk of the file, [None]
    when reading, the header check, the decoding or [json.loads] raised; every
    exception is caught and leaves the attributes assigned so far. *)
Definition VRMFile_load (path : string) (parsed : option pyval) : VRMFile :=
  match parsed with
  | None => {| path := path; json_data := PNone; vrm_version := PNone |}
  | Some j =>
      {| path := path;
         json_data := j;
         vrm_version := match detect_version j with
                        | Ok v => PStr v
                        | Raise _ => PNone
                        end |}
  end.

(** [os.path.basename] of [posixpath]: what follows the last slash. *)
Fixpoint basename (p : string) : string :=
  match p with
  | EmptyString => EmptyString
  | String c r =>
      if PyStr.has_char "/" r then basename r
      else if Ascii.eqb c "/" then r else p
  end.

Section Parser.

Variable percent_decode : string -> string.
Variable check_bracketed_netloc : string -> bool.
Variable checknetloc : string -> bool.

(** [VRMParser.parse(vrm_file)]: [None] for a file of no known version. *)
Definition VRMParser_parse (vrm_file : VRMFile) : result (option pydict) :=
  if py_eq (vrm_version vrm_file) (PStr "0.x") then
    meta <- VRM0xMeta_init (json_data vrm_file) ;;
    info <- VRM0xMeta_get_license_info percent_decode check_bracketed_netloc
              checknetloc meta (basename (path vrm_file)) ;;
    Ok (Some info)
  else if py_eq (vrm_version vrm_file) (PStr "1.0") then
    meta <- VRM1Meta_init (json_data vrm_file) ;;
    info <- VRM1Meta_get_license_info meta (basename (path vrm_file)) ;;
    Ok (Some info)
  else Ok None.

End Parser.

(** ** File sorting based on mapdata.json *)

(** The first loop of [sort_files_by_mapdata]: the DoNotUse mapping apart
    from the normal ones. *)
Fixpoint separate_mappings (sorted_mappings : list pyval)
  (donotuse_mapping : pyval) (normal_mappings : list pyval)
  : result (pyval * list pyval) :=
  match sorted_mappings with
  | [] => Ok (donotuse_mapping, normal_mappings)
  | mapping :: rest =>
      target_dict <- get mapping "target" (PDict []) ;;
      directory <- get mapping "directory" PNone ;;
      if py_eq directory (PStr "DoNotUse") && negb (truthy target_dict)
      then separate_mappings rest mapping normal_mappings
      else separate_mappings rest donotuse_mapping
             (normal_mappings ++ [mapping])%list
  end.

(** From the loaded [mapdata] to the two groups of mappings. *)
Definition load_mappings (mapdata : pyval) : result (pyval * list pyval) :=
  section <- get mapdata "mapdata" (PDict []) ;;
  sorted_mappings <- get section "sorted" (PList []) ;;
  entries <- iterate sorted_mappings ;;
  separate_mappings entries PNone [].

(** One condition of a target, on the normalized value of the file. *)
Definition condition_matches (norm_file_val mapping_value : pyval) : bool :=
  match mapping_value with
  | PList l => existsb (py_same norm_file_val) (map normalize_for_compare l)
  | _ => py_eq norm_file_val (normalize_for_compare mapping_value)
  end.

(** The loop over [target_dict.items()]: the number of evaluated keys and
    [all_match] when the loop is left. *)
Fixpoint eval_target (meta : pyval) (target_items : pydict)
  (evaluated_keys : nat) : result (nat * bool) :=
  match target_items with
  | [] => Ok (evaluated_keys, true)
  | (key, mapping_value) :: rest =>
      present <- contains meta key ;;
      if present then
        let evaluated_keys := S evaluated_keys in
        file_value <- getitem meta key ;;
        if is_none file_value then Ok (evaluated_keys, false)
        else
          let norm_file_val := normalize_for_compare file_value in
          if condition_matches norm_file_val mapping_value
          then eval_target meta rest evaluated_keys
          else Ok (evaluated_keys, false)
      else eval_target meta rest evaluated_keys
  end.

(** [all_match] of one mapping, once the guard on the evaluated keys is
    past; a mapping with an empty target is skipped, which is [false]. *)
Definition all_match (meta mapping : pyval) : result bool :=
  target_dict <- get mapping "target" (PDict []) ;;
  if negb (truthy target_dict) then Ok false
  else
    target_items <- items target_dict ;;
    '(evaluated_keys, matched) <- eval_target meta target_items 0 ;;
    Ok (if Nat.eqb evaluated_keys 0 then false else matched).

(** The move itself: [os.path.exists], [os.makedirs] and [os.path.join]
    accept a [str] directory only. *)
Definition move_to (target_dir : pyval) : result string :=
  match target_dir with
  | PStr d => Ok d
  | _ => Raise TypeError
  end.

(** One turn of the loop over [normal_mappings]: the directory the file is
    moved to, or [None] when the loop goes on. *)
Definition try_mapping (meta mapping : pyval) : result (option string) :=
  matched <- all_match meta mapping ;;
  if matched then
    target_dir <- get mapping "directory" PNone ;;
    if truthy target_dir then d <- move_to target_dir ;; Ok (Some d)
    else Ok None
  else Ok None.

Fixpoint try_mappings (meta : pyval) (normal_mappings : list pyval)
  : result (option string) :=
  match normal_mappings with
  | [] => Ok None
  | mapping :: rest =>
      r <- try_mapping meta mapping ;;
      match r with
      | Some d => Ok (Some d)
      | None => try_mappings meta rest
      end
  end.

Inductive destination : Type :=
| Moved (target_dir : string)
| MovedDoNotUse (target_dir : string)
| NotMoved.

(** What happens to one file: lines 343 to 392. *)
Definition classify (meta : pyval) (normal_mappings : list pyval)
  (donotuse_mapping : pyval) : result destination :=
  moved <- try_mappings meta normal_mappings ;;
  match moved with
  | Some d => Ok (Moved d)
  | None =>
      if truthy donotuse_mapping then
        target_dir <- get donotuse_mapping "directory" PNone ;;
        if truthy target_dir then d <- move_to target_dir ;; Ok (MovedDoNotUse d)
        else Ok NotMoved
      else Ok NotMoved
  end.

(** The [meta] object of a file whose version is known. *)
Definition file_meta (vrm : VRMFile) : result pyval :=
  let marker := if py_eq (vrm_version vrm) (PStr "0.x") then "VRM"
                else "VRMC_vrm" in
  ext <- get (json_data vrm) "extensions" (PDict []) ;;
  container <- get ext marker (PDict []) ;;
  get container "meta" (PDict []).

(** The log of the moves done, and how the pass ended. *)
Definition run : Type := (list (string * string) * result unit)%type.

Fixpoint sort_loop (normal_mappings : list pyval) (donotuse_mapping : pyval)
  (file_list : list (string * option pyval)) (log : list (string * string))
  : run :=
  match file_list with
  | [] => (log, Ok tt)
  | (filepath, parsed) :: rest =>
      let vrm := VRMFile_load filepath parsed in
      if negb (truthy (json_data vrm)
               && (py_eq (vrm_version vrm) (PStr "0.x")
                   || py_eq (vrm_version vrm) (PStr "1.0")))
      then sort_loop normal_mappings donotuse_mapping rest log
      else
        match (meta <- file_meta vrm ;;
               classify meta normal_mappings donotuse_mapping) with
        | Raise e => (log, Raise e)
        | Ok (Moved d) | Ok (MovedDoNotUse d) =>
            sort_loop normal_mappings donotuse_mapping rest
              (log ++ [(filepath, d)])%list
        | Ok NotMoved =>
            sort_loop normal_mappings donotuse_mapping rest log
        end
  end.

(** [sort_files_by_mapdata(file_list, mapdata_filename)], on the parsed
    content of the mapdata file and of each file of the list. *)
Definition sort_files_by_mapdata (file_list : list (string * option pyval))
  (mapdata : pyval) : run :=
  match load_mappings mapdata with
  | Raise e => ([], Raise e)
  | Ok (donotuse_mapping, normal_mappings) =>
      sort_loop normal_mappings donotuse_mapping file_list []
  end.

(** * Definitions for the statements *)

(** ** The unified metadata *)

(** [CSV_KEYS]: the fields of the unified metadata, in order. *)
Definition CSV_KEYS : list string :=
  [ "file_name"; "vrm_version"; "model_name"; "author"; "contact";
    "reference_url"; "commercial_usage"; "redistribution"; "credit_notation";
    "modification"; "avatar_permission"; "sexual_expression";
    "violence_expression"; "license"; "other_permission_url";
    "other_license_url" ].

Inductive schema : Type := Legacy | Current.

Section Adaptation.

Variable percent_decode : string -> string.
Variable check_bracketed_netloc : string -> bool.
Variable checknetloc : string -> bool.

(** The adapter that [VRMParser.parse] selects for each version. *)
Definition get_license_info (s : schema) (meta : pyval)
  (file_name : string) : result pydict :=
  match s with
  | Legacy =>
      VRM0xMeta_get_license_info percent_decode check_bracketed_netloc
        checknetloc meta file_name
  | Current => VRM1Meta_get_license_info meta file_name
  end.

(** The redistribution of a legacy file, from its [otherPermissionUrl]:
    lines 188 to 193. *)
Definition legacy_redistribution (other_permission_url : pyval)
  : result string :=
  if truthy other_permission_url then
    query <- urlparse_query check_bracketed_netloc checknetloc
               other_permission_url ;;
    first (qs_get (parse_qs percent_decode query) "redistribution" ["--"])
  else Ok "--".

End Adaptation.

(** Each field that comes from the meta object, with the key it is read
    from. *)
Definition source_keys (s : schema) : list (string * string) :=
  match s with
  | Legacy =>
      [ ("model_name", "title");
        ("author", "author");
        ("contact", "contactInformation");
        ("reference_url", "reference");
        ("commercial_usage", "commercialUssageName");
        ("redistribution", "otherPermissionUrl");
        ("credit_notation", "creditNotation");
        ("modification", "modification");
        ("avatar_permission", "allowedUserName");
        ("sexual_expression", "sexualUssageName");
        ("violence_expression", "violentUssageName");
        ("license", "licenseName");
        ("other_permission_url", "otherPermissionUrl");
        ("other_license_url", "otherLicenseUrl") ]
  | Current =>
      [ ("model_name", "name");
        ("author", "authors");
        ("commercial_usage", "commercialUsage");
        ("redistribution", "allowRedistribution");
        ("credit_notation", "creditNotation");
        ("modification", "modification");
        ("avatar_permission", "avatarPermission");
        ("sexual_expression", "allowExcessivelySexualUsage");
        ("violence_expression", "allowExcessivelyViolentUsage");
        ("license", "licenseUrl") ]
  end.

(** The three permissions of VRM 1.0 and the fields they fill. *)
Definition tri_state_fields : list (string * string) :=
  [ ("redistribution", "allowRedistribution");
    ("sexual_expression", "allowExcessivelySexualUsage");
    ("violence_expression", "allowExcessivelyViolentUsage") ].

(** The values of a name among the pairs of a query string, in order. *)
Definition values_of (k : string) (pairs : list (string * string))
  : list string :=
  map snd (filter (fun nv => String.eqb k (fst nv)) pairs).

(** Every name of a parsed query string has at least one value. *)
Definition nonempty_values (d : list (string * list string)) : Prop :=
  Forall (fun kv => snd kv <> []) d.

(** ** Mappings *)

(** What the loop over a target decides for a [dict] of metadata: every
    condition whose key the metadata has holds on a value that is not
    [None]... *)
Definition conditions_hold (md target_items : pydict) : bool :=
  forallb
    (fun kv =>
       match lookup md (fst kv) with
       | None => true
       | Some file_value =>
           negb (is_none file_value)
           && condition_matches (normalize_for_compare file_value) (snd kv)
       end)
    target_items.

(** ... and the metadata has at least one of the keys. *)
Definition any_present (md target_items : pydict) : bool :=
  existsb (fun kv => has_key md (fst kv)) target_items.

(** The first mapping, in stored order, whose conditions all match. *)
Fixpoint first_full_match (meta : pyval) (normal_mappings : list pyval)
  : option pyval :=
  match normal_mappings with
  | [] => None
  | mapping :: rest =>
      match all_match meta mapping with
      | Ok true => Some mapping
      | _ => first_full_match meta rest
      end
  end.

Definition is_dict (v : pyval) : bool :=
  match v with PDict _ => true | _ => false end.

(** An entry that the first loop keeps as the DoNotUse mapping: the reserved
    directory and a target that is empty. *)
Definition is_donotuse (mapping : pyval) : bool :=
  match mapping with
  | PDict d =>
      py_eq (dict_get d "directory" PNone) (PStr "DoNotUse")
      && negb (truthy (dict_get d "target" (PDict [])))
  | _ => false
  end.

(** The reading of the specification, to compare with [separate_mappings]:
    the first qualifying entry is the fallback, and every other entry an
    ordinary rule. *)
Fixpoint first_as_fallback (sorted_mappings : list pyval)
  : pyval * list pyval :=
  match sorted_mappings with
  | [] => (PNone, [])
  | mapping :: rest =>
      if is_donotuse mapping then (mapping, rest)
      else let (fallback, normal) := first_as_fallback rest in
           (fallback, mapping :: normal)
  end.

(** The record that [prepare_mapdata] writes and the operator edits: a
    [mapdata] section with an [unsort] section and a [sorted] list, each entry
    of which has a [directory] string and a [target] dictionary. *)
Definition valid_entry (mapping : pyval) : bool :=
  match mapping with
  | PDict d =>
      match lookup d "directory", lookup d "target" with
      | Some (PStr _), Some (PDict _) => true
      | _, _ => false
      end
  | _ => false
  end.

Definition structurally_valid (mapdata : pyval) : bool :=
  match mapdata with
  | PDict top =>
      match lookup top "mapdata" with
      | Some (PDict section) =>
          match lookup section "unsort", lookup section "sorted" with
          | Some (PDict _), Some (PList entries) => forallb valid_entry entries
          | _, _ => false
          end
      | _ => false
      end
  | _ => false
  end.

(** What the first loop can read: an object, whose [mapdata] section, or the
    empty one if missing, is an object, whose [sorted] section, or the empty
    one if missing, iterates over objects. *)
Definition readable_mappings (mapdata : pyval) : bool :=
  match mapdata with
  | PDict top =>
      match dict_get top "mapdata" (PDict []) with
      | PDict section =>
          match iterate (dict_get section "sorted" (PList [])) with
          | Ok entries => forallb is_dict entries
          | Raise _ => false
          end
      | _ => false
      end
  | _ => false
  end.

(** A record without its [mapdata] section, or without the [sorted] one. *)
Definition section_missing (mapdata : pyval) : bool :=
  match mapdata with
  | PDict top =>
      match lookup top "mapdata" with
      | None => true
      | Some (PDict section) => negb (has_key section "sorted")
      | Some _ => false
      end
  | _ => false
  end.

(** ** Strings *)

(** A string that does not begin with white space. *)
Definition clean_start (s : string) : bool :=
  match s with
  | EmptyString => true
  | String c _ => negb (PyStr.isspace c)
  end.

(** ** Examples *)

Module ConditionExample.

Definition nan : pyval := PFloat FNaN.

Definition rule (expected : pyval) : pyval :=
  PDict [("directory", PStr "folder-1");
         ("target", PDict [("licenseName", expected)])].

Definition meta (file_value : pyval) : pyval :=
  PDict [("licenseName", file_value)].

End ConditionExample.

Module FirstMatchExample.

Definition rule_a : pyval :=
  PDict [("directory", PStr "");
         ("target", PDict [("commercialUssageName", PStr "Allow")])].

Definition rule_b : pyval :=
  PDict [("directory", PStr "b");
         ("target", PDict [("commercialUssageName", PStr "Allow");
                           ("licenseName", PStr "CC0")])].

Definition meta : pyval :=
  PDict [("commercialUssageName", PStr "Allow");
         ("licenseName", PStr "CC0")].

End FirstMatchExample.

Module FallbackExample.

Definition first_entry : pyval :=
  PDict [("directory", PStr "DoNotUse"); ("target", PDict []);
         ("note", PStr "first")].

Definition second_entry : pyval :=
  PDict [("directory", PStr "DoNotUse"); ("target", PDict [])].

End FallbackExample.

Module MalformedExample.

(** The target of the second rule is a list, not a dictionary. *)
Definition bad_conditions : pyval :=
  PDict [("mapdata",
          PDict [("unsort", PDict [("target", PDict [])]);
                 ("sorted",
                  PList [PDict [("directory", PStr "a");
                                ("target",
                                 PDict [("licenseName", PStr "CC0")])];
                         PDict [("directory", PStr "b");
                                ("target", PList [PStr "licenseName"])]])])].

(** Both sections are missing. *)
Definition no_section : pyval := PDict [].

Definition vrm0 (license : string) : option pyval :=
  Some (PDict [("extensions",
                PDict [("VRM",
                        PDict [("meta",
                                PDict [("licenseName", PStr license)])])])]).

Definition file_list : list (string * option pyval) :=
  [("one.vrm", vrm0 "CC0"); ("two.vrm", vrm0 "Other")].

End MalformedExample.

Module CurrentExample.

Definition meta : pyval :=
  PDict [("name", PStr "Avatar");
         ("authors", PList [PStr "Alice"; PStr "Bob"]);
         ("contactInformation", PStr "alice@example.com");
         ("otherLicenseUrl", PStr "https://example.com/license");
         ("allowRedistribution", PBool false);
         ("allowExcessivelySexualUsage", PBool true)].

Definition info : pydict :=
  [ ("file_name", PStr "avatar.vrm");
    ("vrm_version", PStr "1.0");
    ("model_name", PStr "Avatar");
    ("author", PStr "Alice, Bob");
    ("contact", PStr "--");
    ("reference_url", PStr "--");
    ("commercial_usage", PStr "--");
    ("redistribution", PStr "Not allowed");
    ("credit_notation", PStr "--");
    ("modification", PStr "--");
    ("avatar_permission", PStr "--");
    ("sexual_expression", PStr "Allowed");
    ("violence_expression", PStr "--");
    ("license", PStr "--");
    ("other_permission_url", PStr "--");
    ("other_license_url", PStr "--") ].

End CurrentExample.

Module LegacyExample.

Definition percent_decode (s : string) : string := s.
Definition accept (netloc : string) : bool := true.

Definition meta : pydict :=
  [("title", PStr "Avatar");
   ("otherPermissionUrl",
    PStr "https://example.com/terms?lang=en&redistribution=Allow#top")].

Definition info : pydict :=
  [ ("file_name", PStr "avatar.vrm");
    ("vrm_version", PStr "0.x");
    ("model_name", PStr "Avatar");
    ("author", PStr "--");
    ("contact", PStr "--");
    ("reference_url", PStr "--");
    ("commercial_usage", PStr "--");
    ("redistribution", PStr "Allow");
    ("credit_notation", PStr "--");
    ("modification", PStr "--");
    ("avatar_permission", PStr "--");
    ("sexual_expression", PStr "--");
    ("violence_expression", PStr "--");
    ("license", PStr "--");
    ("other_permission_url",
     PStr "https://example.com/terms?lang=en&redistribution=Allow#top");
    ("other_license_url", PStr "--") ].

End LegacyExample.

(** * The rest of the program *)

From Stdlib Require Strings.Byte.
From Stdlib Require Import Sorting.Permutation.

(** ** canonicalize *)

(** [hash(value)] returns: a list and a dict are the values that cannot be
    hashed. *)
Definition hashable (value : pyval) : bool :=
  match value with
  | PList _ | PDict _ => false
  | _ => true
  end.

Section Canonicalize.

(** [json.dumps(value, sort_keys=True, ensure_ascii=False)] *)
Variable json_dumps : pyval -> string.

Definition canonicalize (value : pyval) : pyval :=
  if hashable value then value else PStr (json_dumps value).

End Canonicalize.

(** ** License keys *)

Definition LICENSE_KEYS : list string :=
  [ "allowedUserName"; "violentUssageName"; "sexualUssageName";
    "commercialUssageName"; "creditNotation"; "modification"; "licenseName";
    "avatarPermission"; "allowExcessivelyViolentUsage";
    "allowExcessivelySexualUsage"; "commercialUsage"; "allowRedistribution";
    "licenseUrl" ].

Definition in_keys (key : string) (keys : list string) : bool :=
  existsb (String.eqb key) keys.

(** ** Reading the container *)

(** A prefix of at most [n] items: the length of a slice is a 32-bit number,
    so it is counted in binary. *)
Fixpoint take {A : Type} (n : N) (l : list A) : list A :=
  match l with
  | [] => []
  | x :: r => if (n =? 0)%N then [] else x :: take (N.pred n) r
  end.

(** [struct.unpack("<I", ...)] on four bytes. *)
Definition le32 (b0 b1 b2 b3 : Byte.byte) : N :=
  (Byte.to_N b0
   + 256 * (Byte.to_N b1 + 256 * (Byte.to_N b2 + 256 * Byte.to_N b3)))%N.

(** [magic == b'glTF'] *)
Definition is_glTF (m0 m1 m2 m3 : Byte.byte) : bool :=
  Byte.eqb m0 Byte.x67 && Byte.eqb m1 Byte.x6c && Byte.eqb m2 Byte.x54
  && Byte.eqb m3 Byte.x46.

(** The first lines of [VRMFile.load]: the bytes of the JSON chunk, [None]
    when [struct.unpack_from] or the test of the magic raises.  The header
    takes twelve bytes, the length of the chunk the four bytes at offset 12,
    and the chunk is the slice from offset 20. *)
Definition json_chunk (data : list Byte.byte) : option (list Byte.byte) :=
  match data with
  | m0 :: m1 :: m2 :: m3 :: _ :: _ :: _ :: _ :: _ :: _ :: _ :: _ :: tail =>
      if is_glTF m0 m1 m2 m3 then
        match tail with
        | l0 :: l1 :: l2 :: l3 :: _ =>
            Some (take (le32 l0 l1 l2 l3) (skipn 20 data))
        | _ => None
        end
      else None
  | _ => None
  end.

(** The length that the header gives for the chunk. *)
Definition json_length (data : list Byte.byte) : option N :=
  match skipn 12 data with
  | l0 :: l1 :: l2 :: l3 :: _ => Some (le32 l0 l1 l2 l3)
  | _ => None
  end.

(** [b'glTF'] *)
Definition glTF : list Byte.byte := [Byte.x67; Byte.x6c; Byte.x54; Byte.x46].

Section Loader.

(** [bytes.decode("utf-8")], [None] when it raises. *)
Variable decode_utf8 : list Byte.byte -> option string.

(** [json.loads], [None] when it raises. *)
Variable json_loads : string -> option pyval.

(** From the bytes of a file to its parsed JSON chunk. *)
Definition parse_container (data : list Byte.byte) : option pyval :=
  match json_chunk data with
  | None => None
  | Some chunk =>
      match decode_utf8 chunk with
      | None => None
      | Some text => json_loads (PyStr.strip text)
      end
  end.

(** [VRMFile(path).load()] on the content of the file, [None] when the file
    cannot be opened. *)
Definition VRMFile_load_bytes (path : string) (content : option (list Byte.byte))
  : VRMFile :=
  VRMFile_load path
    match content with
    | Some data => parse_container data
    | None => None
    end.

End Loader.

(** ** CSV output *)

(** One row of the CSV output: lines 443 and 444. *)
Definition csv_row (license_info : pydict) : list pyval :=
  map (fun key => dict_get license_info key (PStr "--")) CSV_KEYS.

(** ** mapdata.json preparation *)

(** How [prepare_mapdata] ends: with the record it writes, with an exception,
    or with the local variable [meta] read before any assignment. *)
Inductive prepared : Type :=
| Prepared (mapdata : pyval)
| PrepareRaise (e : exn)
| UnboundLocalError.

(** [s.add(v)] on a set, kept as the list of its members in the order they
    came in. *)
Definition set_add (s : list pyval) (v : pyval) : list pyval :=
  if existsb (py_same v) s then s else (s ++ [v])%list.

(** The last four lines of the loop over the items of a meta object. *)
Fixpoint value_dict_add (value_dict : list (string * list pyval))
  (key : string) (norm_val : pyval) : list (string * list pyval) :=
  match value_dict with
  | [] => [(key, [norm_val])]
  | (k, val_set) :: rest =>
      if String.eqb key k then (k, set_add val_set norm_val) :: rest
      else (k, val_set) :: value_dict_add rest key norm_val
  end.

(** The scaffold of the three folders. *)
Definition sorted_scaffold : pyval :=
  PList [ PDict [("directory", PStr "folder-1"); ("target", PDict [])];
          PDict [("directory", PStr "folder-2"); ("target", PDict [])];
          PDict [("directory", PStr "DoNotUse"); ("target", PDict [])] ].

Section Prepare.

Variable json_dumps : pyval -> string.

(** [list(val_set)]: the order in which a set gives its members back. *)
Variable set_order : list pyval -> list pyval.

(** The loop over [meta.items()]. *)
Definition collect_items (meta_items : pydict)
  (value_dict : list (string * list pyval)) : list (string * list pyval) :=
  fold_left
    (fun value_dict kv =>
       let key := fst kv in
       let value := snd kv in
       if negb (in_keys key LICENSE_KEYS) then value_dict
       else if is_none value || py_eq value (PStr "") then value_dict
       else value_dict_add value_dict key (canonicalize json_dumps value))
    meta_items value_dict.

(** The loop over the files; [meta] is the local variable of that name,
    [None] until it is assigned. *)
Fixpoint collect_files (file_list : list (string * option pyval))
  (meta : option pyval) (value_dict : list (string * list pyval))
  : result (list (string * list pyval)) + unit :=
  match file_list with
  | [] => inl (Ok value_dict)
  | (filepath, parsed) :: rest =>
      let vrm := VRMFile_load filepath parsed in
      if truthy (json_data vrm) then
        let assigned :=
          if py_eq (vrm_version vrm) (PStr "0.x")
             || py_eq (vrm_version vrm) (PStr "1.0")
          then match file_meta vrm with
               | Ok m => Ok (Some m)
               | Raise e => Raise e
               end
          else Ok meta in
        match assigned with
        | Raise e => inl (Raise e)
        | Ok None => inr tt
        | Ok (Some m) =>
            match items m with
            | Raise e => inl (Raise e)
            | Ok meta_items =>
                collect_files rest (Some m)
                  (collect_items meta_items value_dict)
            end
        end
      else collect_files rest meta value_dict
  end.

(** From the sets to a single value or a list. *)
Definition unsort_target (value_dict : list (string * list pyval)) : pydict :=
  map (fun kv =>
         let val_list := set_order (snd kv) in
         match val_list with
         | [v] => (fst kv, v)
         | _ => (fst kv, PList val_list)
         end)
    value_dict.

(** [prepare_mapdata(file_list, mapdata_filename)]: the record written to the
    mapdata file. *)
Definition prepare_mapdata (file_list : list (string * option pyval))
  : prepared :=
  match collect_files file_list None [] with
  | inr tt => UnboundLocalError
  | inl (Raise e) => PrepareRaise e
  | inl (Ok value_dict) =>
      Prepared
        (PDict [("mapdata",
                 PDict [("unsort",
                         PDict [("target",
                                 PDict (unsort_target value_dict))]);
                        ("sorted", sorted_scaffold)])])
  end.

End Prepare.

(** ** Definitions for the further statements *)

(** A file that the sorting pass does not skip. *)
Definition recognised (file : string * option pyval) : bool :=
  let vrm := VRMFile_load (fst file) (snd file) in
  truthy (json_data vrm)
  && (py_eq (vrm_version vrm) (PStr "0.x")
      || py_eq (vrm_version vrm) (PStr "1.0")).

(** The metadata with every value normalized. *)
Definition normalize_values (md : pydict) : pydict :=
  map (fun kv => (fst kv, normalize_for_compare (snd kv))) md.

(** A byte string with the header fields that the loader does not read
    replaced: the version and the total length at offsets 4 to 11, and the
    type of the chunk at offsets 16 to 19. *)
Definition with_unread_fields (data fields : list Byte.byte) : list Byte.byte :=
  (firstn 4 data ++ firstn 8 fields ++ firstn 4 (skipn 12 data)
   ++ firstn 4 (skipn 8 fields) ++ skipn 20 data)%list.

(** The marker of a schema among the extensions, and the tag of its
    version. *)
Definition marker (s : schema) : string :=
  match s with Legacy => "VRM" | Current => "VRMC_vrm" end.

Definition version_tag (s : schema) : string :=
  match s with Legacy => "0.x" | Current => "1.0" end.

(** The [meta] attribute that the parser of a schema starts from. *)
Definition meta_init (s : schema) (json_data : pyval) : result pyval :=
  match s with
  | Legacy => VRM0xMeta_init json_data
  | Current => VRM1Meta_init json_data
  end.

(** What [prepare_mapdata] keeps for every key it has met: a set, not empty,
    of values that can be hashed and are not [None]. *)
Definition value_ok (v : pyval) : Prop := hashable v = true /\ v <> PNone.

Definition value_dict_ok (value_dict : list (string * list pyval)) : Prop :=
  Forall (fun kv => In (fst kv) LICENSE_KEYS
                    /\ snd kv <> []
                    /\ Forall value_ok (snd kv))
    value_dict.

(** A character of a plain URL: ASCII, and not a bracket. *)
Definition plain_char (c : ascii) : bool :=
  (N_of_ascii c <? 128)%N && negb (Ascii.eqb c "[") && negb (Ascii.eqb c "]").

Definition is_str (v : pyval) : bool :=
  match v with PStr _ => true | _ => false end.

(** ** Further examples *)

Module PrepareExample.

Definition json_dumps (v : pyval) : string := "[]".

Definition set_order (l : list pyval) : list pyval := l.

Definition vrm1 (usage : string) : option pyval :=
  Some (PDict [("extensions",
                PDict [("VRMC_vrm",
                        PDict [("meta",
                                PDict [("name", PStr "Avatar");
                                       ("commercialUsage", PStr usage);
                                       ("licenseUrl", PStr "");
                                       ("allowRedistribution",
                                        PBool false)])])])]).

Definition file_list : list (string * option pyval) :=
  [("a.vrm", vrm1 "personalNonProfit"); ("broken.vrm", None);
   ("b.vrm", vrm1 "corporation"); ("c.vrm", vrm1 "personalNonProfit")].

Definition mapdata : pyval :=
  PDict [("mapdata",
          PDict [("unsort",
                  PDict [("target",
                          PDict [("commercialUsage",
                                  PList [PStr "personalNonProfit";
                                         PStr "corporation"]);
                                 ("allowRedistribution", PBool false)])]);
                 ("sorted", sorted_scaffold)])].

End PrepareExample.

(** * Properties *)

(** ** Strings: stripping and lower-casing *)

Module PyStrFacts.
Import PyStr.

Lemma isspace_lower_char (c : ascii) : isspace (lower_char c) = isspace c.
Proof. destruct c as [[] [] [] [] [] [] [] []]; reflexivity. Qed.

Lemma lower_char_idem (c : ascii) : lower_char (lower_char c) = lower_char c.
Proof. destruct c as [[] [] [] [] [] [] [] []]; reflexivity. Qed.

Lemma lower_idem (s : string) : lower (lower s) = lower s.
Proof.
  induction s as [|c r IH]; simpl; [reflexivity|].
  now rewrite lower_char_idem, IH.
Qed.

Lemma lstrip_lower (s : string) : lstrip (lower s) = lower (lstrip s).
Proof.
  induction s as [|c r IH]; simpl; [reflexivity|].
  rewrite isspace_lower_char. destruct (isspace c); [exact IH|reflexivity].
Qed.

Lemma rstrip_lower (s : string) : rstrip (lower s) = lower (rstrip s).
Proof.
  induction s as [|c r IH]; simpl; [reflexivity|].
  rewrite IH, isspace_lower_char.
  destruct (rstrip r); simpl; [destruct (isspace c)|]; reflexivity.
Qed.

Lemma strip_lower (s : string) : strip (lower s) = lower (strip s).
Proof. unfold strip. now rewrite lstrip_lower, rstrip_lower. Qed.

Lemma lstrip_clean_start (s : string) : clean_start (lstrip s) = true.
Proof.
  induction s as [|c r IH]; simpl; [reflexivity|].
  destruct (isspace c) eqn:E; [exact IH|]. simpl. now rewrite E.
Qed.

Lemma lstrip_fixed (s : string) : clean_start s = true -> lstrip s = s.
Proof.
  destruct s as [|c r]; simpl; [reflexivity|].
  now destruct (isspace c).
Qed.

Lemma rstrip_clean_start (s : string) :
  clean_start s = true -> clean_start (rstrip s) = true.
Proof.
  destruct s as [|c r]; simpl; [reflexivity|]. intros H.
  destruct (rstrip r); simpl; [|exact H].
  destruct (isspace c) eqn:E; [discriminate|]. simpl. now rewrite E.
Qed.

Lemma rstrip_idem (s : string) : rstrip (rstrip s) = rstrip s.
Proof.
  induction s as [|c r IH]; simpl; [reflexivity|].
  destruct (rstrip r) as [|d r'] eqn:E.
  - destruct (isspace c) eqn:Ec; simpl; [reflexivity|]. now rewrite Ec.
  - change (rstrip (String c (String d r')) = String c (String d r')).
    simpl rstrip at 1. simpl in IH. now rewrite IH.
Qed.

Lemma strip_idem (s : string) : strip (strip s) = strip s.
Proof.
  unfold strip.
  rewrite (lstrip_fixed (rstrip (lstrip s))).
  - apply rstrip_idem.
  - apply rstrip_clean_start, lstrip_clean_start.
Qed.

(** Normalizing a normalized string changes nothing. *)
Lemma lower_strip_idem (s : string) :
  lower (strip (lower (strip s))) = lower (strip s).
Proof. now rewrite strip_lower, strip_idem, lower_idem. Qed.

End PyStrFacts.

(** ** Dictionaries *)

Lemma lookup_In (d : pydict) (k : string) (v : pyval) :
  lookup d k = Some v -> In (k, v) d.
Proof.
  induction d as [|[k' v'] r IH]; simpl; [discriminate|].
  destruct (String.eqb_spec k k') as [->|_].
  - intros [= ->]. now left.
  - intros H. right. now apply IH.
Qed.

Lemma has_key_false (d : pydict) (k : string) :
  has_key d k = false <-> lookup d k = None.
Proof. unfold has_key. destruct (lookup d k); split; congruence. Qed.

Lemma has_key_true (d : pydict) (k : string) :
  has_key d k = true <-> exists v, lookup d k = Some v.
Proof.
  unfold has_key. destruct (lookup d k) as [v|]; split; try congruence.
  - intros _. now exists v.
  - intros [v H]. discriminate.
Qed.

(** ** The conditions of one mapping *)

Lemma eval_target_dict (md target_items : pydict) (n : nat) :
  exists n',
    eval_target (PDict md) target_items n
    = Ok (n', conditions_hold md target_items)
    /\ Nat.eqb n' 0 = Nat.eqb n 0 && negb (any_present md target_items).
Proof.
  revert n. induction target_items as [|[k mv] rest IH]; intros n.
  - exists n. split; [reflexivity|]. simpl. now rewrite andb_true_r.
  - simpl. unfold has_key. destruct (lookup md k) as [fv|] eqn:E; simpl.
    + destruct (is_none fv); simpl.
      * exists (S n). split; [reflexivity|]. now rewrite andb_false_r.
      * destruct (condition_matches (normalize_for_compare fv) mv); simpl.
        -- destruct (IH (S n)) as [n' [H1 H2]]. exists n'.
           split; [exact H1|]. rewrite H2. simpl. now rewrite andb_false_r.
        -- exists (S n). split; [reflexivity|]. now rewrite andb_false_r.
    + apply IH.
Qed.

Lemma all_match_dict (md m t : pydict) :
  dict_get m "target" (PDict []) = PDict t ->
  all_match (PDict md) (PDict m)
  = Ok (any_present md t && conditions_hold md t).
Proof.
  intros Ht. unfold all_match. simpl. rewrite Ht.
  destruct t as [|kv t']; [reflexivity|].
  cbn [truthy negb items bind].
  destruct (eval_target_dict md (kv :: t') 0) as [n' [H1 H2]].
  rewrite H1. cbn [bind]. rewrite H2. simpl Nat.eqb. cbn [andb].
  now destruct (any_present md (kv :: t')).
Qed.

Lemma conditions_hold_spec (md t : pydict) :
  conditions_hold md t = true <->
  forall k mv fv, In (k, mv) t -> lookup md k = Some fv ->
    fv <> PNone
    /\ condition_matches (normalize_for_compare fv) mv = true.
Proof.
  unfold conditions_hold. rewrite forallb_forall. split.
  - intros H k mv fv Hin Hl. specialize (H (k, mv) Hin). simpl in H.
    rewrite Hl in H. apply andb_true_iff in H. destruct H as [H1 H2].
    split; [|exact H2]. intros ->. discriminate.
  - intros H [k mv] Hin. simpl. destruct (lookup md k) as [fv|] eqn:E;
      [|reflexivity].
    destruct (H k mv fv Hin E) as [H1 H2]. rewrite H2.
    destruct fv; try reflexivity. now elim H1.
Qed.

Lemma any_present_spec (md t : pydict) :
  any_present md t = true <->
  exists k, In k (map fst t) /\ has_key md k = true.
Proof.
  unfold any_present. rewrite existsb_exists. split.
  - intros [[k mv] [Hin H]]. exists k. split; [|exact H].
    apply in_map_iff. now exists (k, mv).
  - intros [k [Hin H]]. apply in_map_iff in Hin.
    destruct Hin as [[k' mv] [<- Hin]]. now exists (k', mv).
Qed.

Lemma condition_matches_spec (nf mv : pyval) :
  condition_matches nf mv = true <->
  match mv with
  | PList l =>
      exists x, In x l /\ py_same nf (normalize_for_compare x) = true
  | _ => py_eq nf (normalize_for_compare mv) = true
  end.
Proof.
  destruct mv; simpl; try reflexivity.
  rewrite existsb_exists. split.
  - intros [y [Hin H]]. apply in_map_iff in Hin.
    destruct Hin as [x [<- Hin]]. now exists x.
  - intros [x [Hin H]]. exists (normalize_for_compare x).
    split; [|exact H]. now apply in_map.
Qed.

(** ** Normalization *)

(** C9: [normalize_for_compare] is idempotent.  For every value, a field of
    the unified metadata included, normalizing twice gives what normalizing
    once gives. *)
Theorem normalize_for_compare_idempotent (value : pyval) :
  normalize_for_compare (normalize_for_compare value)
  = normalize_for_compare value.
Proof.
  destruct value as [| | | |s| |]; try reflexivity.
  assert (E : normalize_for_compare (PStr s)
              = let v := PyStr.lower (PyStr.strip s) in
                if String.eqb v "true" then PBool true
                else if String.eqb v "false" then PBool false
                else PStr v) by reflexivity.
  rewrite E. cbv zeta.
  destruct (String.eqb (PyStr.lower (PyStr.strip s)) "true") eqn:Et;
    [reflexivity|].
  destruct (String.eqb (PyStr.lower (PyStr.strip s)) "false") eqn:Ef;
    [reflexivity|].
  unfold normalize_for_compare.
  now rewrite PyStrFacts.lower_strip_idem, Et, Ef.
Qed.

(** ** Conditions *)

(** C5, as stated, fails in both directions.  A file value [null] equals,
    once normalized, the expected value [null] and a member of the list
    [[null, "CC0"]], and matches neither: the loop rejects a [null] before it
    compares.  The NaN is not equal to itself, and a file value NaN matches
    the list [[NaN]], where [in] finds the same object; it does not match the
    scalar NaN. *)
Lemma condition_or_semantics_counterexample :
  py_eq (normalize_for_compare PNone) (normalize_for_compare PNone) = true
  /\ all_match (ConditionExample.meta PNone) (ConditionExample.rule PNone)
     = Ok false
  /\ all_match (ConditionExample.meta PNone)
       (ConditionExample.rule (PList [PNone; PStr "CC0"]))
     = Ok false
  /\ py_eq (normalize_for_compare ConditionExample.nan)
       (normalize_for_compare ConditionExample.nan) = false
  /\ all_match (ConditionExample.meta ConditionExample.nan)
       (ConditionExample.rule (PList [ConditionExample.nan]))
     = Ok true
  /\ all_match (ConditionExample.meta ConditionExample.nan)
       (ConditionExample.rule ConditionExample.nan)
     = Ok false.
Proof. repeat split. Qed.

(** C5, amended.  [normalize_for_compare] trims a string, lower-cases it and
    turns "true" and "false" into the booleans, and leaves any other value as
    it is.  On a file value that is not [None], a condition given as a list
    holds exactly when the normalized value of the file is the same object
    as, or equal to, one member of the list normalized by the same function,
    and a scalar condition holds exactly when the two normalized values are
    equal.  A file value [None] matches no condition.  A mapping matches a
    file exactly when the metadata has one of its keys and every condition
    whose key the metadata has holds in that sense. *)
Theorem condition_or_semantics (md m t : pydict) :
  dict_get m "target" (PDict []) = PDict t ->
  ((forall s,
       normalize_for_compare (PStr s)
       = if String.eqb (PyStr.lower (PyStr.strip s)) "true" then PBool true
         else if String.eqb (PyStr.lower (PyStr.strip s)) "false"
              then PBool false
              else PStr (PyStr.lower (PyStr.strip s)))
   /\ (forall v,
          match v with
          | PStr _ => True
          | _ => normalize_for_compare v = v
          end)
   /\ normalize_for_compare (PStr "  Personal Non-Profit ")
      = PStr "personal non-profit"
   /\ normalize_for_compare (PStr " TRUE") = PBool true
   /\ normalize_for_compare (PStr "False ") = PBool false)
  /\ (forall file_value mapping_value,
        condition_matches (normalize_for_compare file_value) mapping_value
        = true
        <-> match mapping_value with
            | PList l =>
                exists x, In x l
                  /\ py_same (normalize_for_compare file_value)
                       (normalize_for_compare x) = true
            | _ => py_eq (normalize_for_compare file_value)
                     (normalize_for_compare mapping_value) = true
            end)
  /\ (all_match (PDict md) (PDict m) = Ok true
      <-> (exists k, In k (map fst t) /\ has_key md k = true)
          /\ forall k mapping_value file_value,
              In (k, mapping_value) t -> lookup md k = Some file_value ->
              file_value <> PNone
              /\ condition_matches
                   (normalize_for_compare file_value) mapping_value = true)
  /\ (forall key mapping_value file_value,
        t = [(key, mapping_value)] ->
        lookup md key = Some file_value ->
        (file_value = PNone -> all_match (PDict md) (PDict m) = Ok false)
        /\ (all_match (PDict md) (PDict m) = Ok true
            <-> file_value <> PNone
                /\ match mapping_value with
                   | PList l =>
                       exists x, In x l
                         /\ py_same (normalize_for_compare file_value)
                              (normalize_for_compare x) = true
                   | _ => py_eq (normalize_for_compare file_value)
                            (normalize_for_compare mapping_value) = true
                   end)).
Proof.
  intros Ht. split; [|split; [|split]].
  - repeat split. intros v. now destruct v.
  - intros fv mv. apply condition_matches_spec.
  - rewrite (all_match_dict md m t Ht).
    rewrite <- any_present_spec, <- conditions_hold_spec.
    split.
    + intros [= H]. now apply andb_true_iff in H.
    + intros [H1 H2]. now rewrite H1, H2.
  - intros key mv fv -> Hk.
    rewrite (all_match_dict md m _ Ht).
    unfold any_present, conditions_hold, has_key.
    cbn [existsb forallb fst snd]. rewrite Hk.
    rewrite orb_false_r, andb_true_r. cbn [andb].
    rewrite <- condition_matches_spec. split.
    + intros ->. reflexivity.
    + destruct fv; cbn [is_none negb andb]; split;
        try (intros [= H]; split; [discriminate|exact H]);
        try (intros [_ H]; now rewrite H);
        try discriminate.
      intros [H _]. now elim H.
Qed.

Lemma condition_or_semantics_witness :
  all_match
    (PDict [("commercialUsage", PStr " Personal ")])
    (PDict [("directory", PStr "folder-1");
            ("target",
             PDict [("commercialUsage",
                     PList [PStr "corporation"; PStr "PERSONAL"])])])
  = Ok true.
Proof.
  apply (proj1 (proj2 (proj2 (condition_or_semantics
           [("commercialUsage", PStr " Personal ")]
           [("directory", PStr "folder-1");
            ("target",
             PDict [("commercialUsage",
                     PList [PStr "corporation"; PStr "PERSONAL"])])]
           [("commercialUsage",
             PList [PStr "corporation"; PStr "PERSONAL"])]
           eq_refl)))).
  split.
  - exists "commercialUsage". split; [now left | reflexivity].
  - intros k mv fv [[= <- <-]|[]] [= <-].
    split; [discriminate | reflexivity].
Defined.

(** ** Mappings that cannot match *)

Lemma try_mappings_app (meta : pyval) (pre rest : list pyval) :
  (forall m, In m pre -> try_mapping meta m = Ok None) ->
  try_mappings meta (pre ++ rest) = try_mappings meta rest.
Proof.
  induction pre as [|m pre IH]; intros H; [reflexivity|].
  simpl. rewrite (H m (or_introl eq_refl)). simpl.
  apply IH. intros m' Hin. apply H. now right.
Qed.

(** C4: a conditional rule none of whose condition keys is a key of the
    metadata of the file, a rule with no condition included, does not match
    the file, is never the rule that moves it, and the file is classified as
    if the rule were not there. *)
Theorem absent_keys_never_match (md m t : pydict) (pre post : list pyval)
  (donotuse_mapping : pyval) :
  dict_get m "target" (PDict []) = PDict t ->
  (forall k, In k (map fst t) -> has_key md k = false) ->
  all_match (PDict md) (PDict m) = Ok false
  /\ try_mapping (PDict md) (PDict m) = Ok None
  /\ classify (PDict md) (pre ++ PDict m :: post) donotuse_mapping
     = classify (PDict md) (pre ++ post) donotuse_mapping.
Proof.
  intros Ht Habs.
  assert (Hm : all_match (PDict md) (PDict m) = Ok false).
  { rewrite (all_match_dict md m t Ht).
    destruct (any_present md t) eqn:E; [|reflexivity].
    apply any_present_spec in E. destruct E as [k [Hin Hk]].
    rewrite (Habs k Hin) in Hk. discriminate. }
  assert (Hs : try_mapping (PDict md) (PDict m) = Ok None).
  { unfold try_mapping. now rewrite Hm. }
  repeat split; [exact Hm | exact Hs |].
  unfold classify. f_equal.
  induction pre as [|p pre IH]; simpl.
  - now rewrite Hs.
  - destruct (try_mapping (PDict md) p) as [[d|]|e]; simpl;
      [reflexivity | exact IH | reflexivity].
Qed.

Lemma absent_keys_never_match_witness :
  classify (PDict [("allowedUserName", PStr "Everyone")])
    [PDict [("directory", PStr "folder-1");
            ("target", PDict [("licenseName", PStr "CC0")])];
     PDict [("directory", PStr "folder-2"); ("target", PDict [])]]
    (PDict [("directory", PStr "DoNotUse"); ("target", PDict [])])
  = classify (PDict [("allowedUserName", PStr "Everyone")])
      [PDict [("directory", PStr "folder-2"); ("target", PDict [])]]
      (PDict [("directory", PStr "DoNotUse"); ("target", PDict [])]).
Proof.
  apply (absent_keys_never_match
           [("allowedUserName", PStr "Everyone")]
           [("directory", PStr "folder-1");
            ("target", PDict [("licenseName", PStr "CC0")])]
           [("licenseName", PStr "CC0")]
           []
           [PDict [("directory", PStr "folder-2"); ("target", PDict [])]]
           (PDict [("directory", PStr "DoNotUse"); ("target", PDict [])])
           eq_refl).
  intros k [<-|[]]. reflexivity.
Defined.

(** ** First match wins *)

(** C1, as stated, fails: rule A comes first, its conditions are a strict
    subset of those of rule B, both match, and the file goes to the directory
    of B, because the directory of A is empty. *)
Lemma first_match_wins_counterexample :
  first_full_match FirstMatchExample.meta
    [FirstMatchExample.rule_a; FirstMatchExample.rule_b]
  = Some FirstMatchExample.rule_a
  /\ all_match FirstMatchExample.meta FirstMatchExample.rule_b = Ok true
  /\ get FirstMatchExample.rule_a "directory" PNone = Ok (PStr "")
  /\ classify FirstMatchExample.meta
       [FirstMatchExample.rule_a; FirstMatchExample.rule_b] PNone
     = Ok (Moved "b")
  /\ classify FirstMatchExample.meta
       [FirstMatchExample.rule_a; FirstMatchExample.rule_b] PNone
     <> Ok (Moved "").
Proof. repeat split. discriminate. Qed.

(** C1, amended: the file goes to the directory of the first mapping, in
    stored order, that fully matches and whose directory is not empty; no
    mapping after it is consulted, whatever it is. *)
Theorem first_match_wins (meta : pyval) (pre post : list pyval)
  (rule : pyval) (d : string) (donotuse_mapping : pyval) :
  (forall m, In m pre ->
     all_match meta m = Ok false
     \/ (all_match meta m = Ok true
         /\ exists v, get m "directory" PNone = Ok v /\ truthy v = false)) ->
  all_match meta rule = Ok true ->
  get rule "directory" PNone = Ok (PStr d) ->
  d <> "" ->
  classify meta (pre ++ rule :: post) donotuse_mapping = Ok (Moved d).
Proof.
  intros Hpre Hm Hd Hne.
  unfold classify. rewrite try_mappings_app.
  - simpl. unfold try_mapping. rewrite Hm. simpl. rewrite Hd. simpl.
    destruct (String.eqb_spec d ""); [contradiction|reflexivity].
  - intros m Hin. unfold try_mapping.
    destruct (Hpre m Hin) as [->|[-> [v [-> Hv]]]]; simpl;
      [reflexivity|]. now rewrite Hv.
Qed.

Lemma first_match_wins_witness :
  classify FirstMatchExample.meta
    ([PDict [("directory", PStr "x");
             ("target", PDict [("licenseName", PStr "Other")])];
      FirstMatchExample.rule_a]
     ++ PDict [("directory", PStr "a");
               ("target", PDict [("commercialUssageName", PStr "allow")])]
     :: [FirstMatchExample.rule_b; PInt 3])
    (PDict [("directory", PStr "DoNotUse")])
  = Ok (Moved "a").
Proof.
  apply first_match_wins.
  - intros m [<-|[<-|[]]].
    + left. reflexivity.
    + right. split; [reflexivity|]. exists (PStr ""). split; reflexivity.
  - reflexivity.
  - reflexivity.
  - discriminate.
Defined.

(** ** The DoNotUse mapping *)

Lemma last_cons_default {A : Type} (q : list A) (x default : A) :
  last (x :: q) default = last q x.
Proof.
  revert x default. induction q as [|y q IH]; intros x default; [reflexivity|].
  change (last (y :: q) default = last (y :: q) x).
  now rewrite (IH y default), (IH y x).
Qed.

Lemma separate_mappings_acc (sorted_mappings : list pyval) :
  (forall m, In m sorted_mappings -> is_dict m = true) ->
  forall donotuse normal,
    separate_mappings sorted_mappings donotuse normal
    = Ok (last (filter is_donotuse sorted_mappings) donotuse,
          (normal
           ++ filter (fun m => negb (is_donotuse m)) sorted_mappings)%list).
Proof.
  induction sorted_mappings as [|m rest IH]; intros Hd donotuse normal.
  - simpl. now rewrite app_nil_r.
  - assert (Hm : is_dict m = true) by (apply Hd; now left).
    assert (Hrest : forall x, In x rest -> is_dict x = true)
      by (intros x Hx; apply Hd; now right).
    destruct m as [| | | | | |d]; try discriminate.
    cbn [separate_mappings get bind filter is_donotuse].
    destruct (py_eq (dict_get d "directory" PNone) (PStr "DoNotUse")
              && negb (truthy (dict_get d "target" (PDict [])))) eqn:E.
    + rewrite (IH Hrest). cbn [negb]. f_equal. f_equal.
      now rewrite last_cons_default.
    + rewrite (IH Hrest). cbn [negb]. f_equal. f_equal.
      now rewrite <- app_assoc.
Qed.

(** C6, as stated, fails: of two entries with the reserved label and an empty
    target, the code keeps the second as the fallback and drops the first,
    where the claim keeps the first and makes the second an ordinary rule. *)
Lemma first_fallback_counterexample :
  separate_mappings
    [FallbackExample.first_entry; FallbackExample.second_entry] PNone []
  = Ok (FallbackExample.second_entry, [])
  /\ first_as_fallback
       [FallbackExample.first_entry; FallbackExample.second_entry]
     = (FallbackExample.first_entry, [FallbackExample.second_entry])
  /\ separate_mappings
       [FallbackExample.first_entry; FallbackExample.second_entry] PNone []
     <> Ok (first_as_fallback
              [FallbackExample.first_entry; FallbackExample.second_entry]).
Proof. repeat split. discriminate. Qed.

(** C6, amended: of the entries with the reserved label and an empty target
    the last one is the fallback and the others are dropped; every other
    entry, one with the reserved label and conditions included, is an
    ordinary rule, in stored order. *)
Theorem last_fallback_wins (sorted_mappings : list pyval) :
  (forall m, In m sorted_mappings -> is_dict m = true) ->
  separate_mappings sorted_mappings PNone []
  = Ok (last (filter is_donotuse sorted_mappings) PNone,
        filter (fun m => negb (is_donotuse m)) sorted_mappings)
  /\ forall d,
      In (PDict d) sorted_mappings ->
      dict_get d "directory" PNone = PStr "DoNotUse" ->
      truthy (dict_get d "target" (PDict [])) = true ->
      In (PDict d) (filter (fun m => negb (is_donotuse m)) sorted_mappings).
Proof.
  intros Hd. split.
  - now rewrite (separate_mappings_acc sorted_mappings Hd).
  - intros d Hin Hdir Ht. apply filter_In. split; [exact Hin|].
    simpl. rewrite Ht. now rewrite andb_false_r.
Qed.

Lemma last_fallback_wins_witness :
  separate_mappings
    [FallbackExample.first_entry;
     PDict [("directory", PStr "DoNotUse");
            ("target", PDict [("licenseName", PStr "CC0")])];
     FallbackExample.second_entry] PNone []
  = Ok (FallbackExample.second_entry,
        [PDict [("directory", PStr "DoNotUse");
                ("target", PDict [("licenseName", PStr "CC0")])]]).
Proof.
  apply (last_fallback_wins
           [FallbackExample.first_entry;
            PDict [("directory", PStr "DoNotUse");
                   ("target", PDict [("licenseName", PStr "CC0")])];
            FallbackExample.second_entry]).
  intros m [<-|[<-|[<-|[]]]]; reflexivity.
Defined.

(** ** Malformed mapdata *)

Lemma separate_mappings_raises (entries : list pyval) :
  forallb is_dict entries = false ->
  forall donotuse normal,
    separate_mappings entries donotuse normal = Raise AttributeError.
Proof.
  induction entries as [|m rest IH]; [discriminate|].
  intros H donotuse normal. simpl in H.
  destruct m as [| | | | | |d]; try reflexivity.
  simpl in H. cbn [separate_mappings get bind].
  destruct (py_eq (dict_get d "directory" PNone) (PStr "DoNotUse")
            && negb (truthy (dict_get d "target" (PDict []))));
    now apply IH.
Qed.

Lemma sort_loop_no_rule (file_list : list (string * option pyval))
  (log : list (string * string)) :
  fst (sort_loop [] PNone file_list log) = log.
Proof.
  revert log. induction file_list as [|[filepath parsed] rest IH]; intros log;
    [reflexivity|].
  cbn [sort_loop].
  destruct (negb _); [apply IH|].
  destruct (file_meta (VRMFile_load filepath parsed)) as [meta|e];
    [|reflexivity].
  cbn. apply IH.
Qed.

(** C7, as stated, fails: with a malformed target in the second rule the
    first file is moved before the pass fails on the second file, and with
    both sections missing the pass does not fail at all. *)
Lemma malformed_mapdata_counterexample :
  structurally_valid MalformedExample.bad_conditions = false
  /\ sort_files_by_mapdata MalformedExample.file_list
       MalformedExample.bad_conditions
     = ([("one.vrm", "a")], Raise AttributeError)
  /\ structurally_valid MalformedExample.no_section = false
  /\ sort_files_by_mapdata MalformedExample.file_list
       MalformedExample.no_section
     = ([], Ok tt).
Proof. repeat split. Qed.

(** C7, amended: a record that the first loop cannot read (the record or its
    mapdata section is not an object, the sorted section cannot be iterated,
    or one of its entries is not an object) makes the pass fail before any
    file is processed; a record without the mapdata section or without the
    sorted section is read as an empty rule set; in both cases no file is
    moved. *)
Theorem unreadable_mapdata_fails_first
  (file_list : list (string * option pyval)) (mapdata : pyval) :
  readable_mappings mapdata = false \/ section_missing mapdata = true ->
  fst (sort_files_by_mapdata file_list mapdata) = []
  /\ (readable_mappings mapdata = false ->
      exists e, sort_files_by_mapdata file_list mapdata = ([], Raise e))
  /\ (section_missing mapdata = true ->
      load_mappings mapdata = Ok (PNone, [])).
Proof.
  intros H.
  assert (Hunread : readable_mappings mapdata = false ->
            exists e, sort_files_by_mapdata file_list mapdata = ([], Raise e)).
  { intros Hr. unfold sort_files_by_mapdata, load_mappings.
    destruct mapdata as [| | | | | |top]; try (now eexists).
    simpl in Hr. cbn [get bind].
    destruct (dict_get top "mapdata" (PDict [])) as [| | | | | |section];
      try (now eexists).
    cbn [get bind].
    destruct (iterate (dict_get section "sorted" (PList []))) as [entries|e];
      [|now eexists].
    cbn [bind]. rewrite (separate_mappings_raises entries Hr). now eexists. }
  assert (Hmiss : section_missing mapdata = true ->
            load_mappings mapdata = Ok (PNone, [])).
  { intros Hs. unfold load_mappings.
    destruct mapdata as [| | | | | |top]; try discriminate.
    simpl in Hs. cbn [get bind]. unfold dict_get at 1.
    destruct (lookup top "mapdata") as [section|]; [|reflexivity].
    destruct section as [| | | | | |section]; try discriminate.
    cbn [get bind]. apply negb_true_iff, has_key_false in Hs.
    unfold dict_get. now rewrite Hs. }
  split; [|split; assumption].
  destruct H as [Hr|Hs].
  - destruct (Hunread Hr) as [e ->]. reflexivity.
  - unfold sort_files_by_mapdata. rewrite (Hmiss Hs).
    apply sort_loop_no_rule.
Qed.

Lemma unreadable_mapdata_fails_first_witness :
  fst (sort_files_by_mapdata MalformedExample.file_list
         (PDict [("mapdata", PDict [("sorted", PList [PStr "folder-1"])])]))
  = []
  /\ fst (sort_files_by_mapdata MalformedExample.file_list
            MalformedExample.no_section)
     = [].
Proof.
  split.
  - apply (unreadable_mapdata_fails_first MalformedExample.file_list
             (PDict [("mapdata", PDict [("sorted", PList [PStr "folder-1"])])])).
    left. reflexivity.
  - apply (unreadable_mapdata_fails_first MalformedExample.file_list
             MalformedExample.no_section).
    right. reflexivity.
Defined.

(** ** The unified metadata *)

Lemma VRM1_info_shape (meta : pyval) (file_name : string) (info : pydict) :
  VRM1Meta_get_license_info meta file_name = Ok info ->
  exists md author,
    meta = PDict md
    /\ str_join ", " (dict_get md "authors" (PList [PStr "--"])) = Ok author
    /\ info =
       [ ("file_name", PStr file_name);
         ("vrm_version", PStr "1.0");
         ("model_name", dict_get md "name" (PStr "--"));
         ("author", PStr author);
         ("contact", PStr "--");
         ("reference_url", PStr "--");
         ("commercial_usage", dict_get md "commercialUsage" (PStr "--"));
         ("redistribution",
          allowed_or_not (dict_get md "allowRedistribution" PNone));
         ("credit_notation", dict_get md "creditNotation" (PStr "--"));
         ("modification", dict_get md "modification" (PStr "--"));
         ("avatar_permission", dict_get md "avatarPermission" (PStr "--"));
         ("sexual_expression",
          allowed_or_not (dict_get md "allowExcessivelySexualUsage" PNone));
         ("violence_expression",
          allowed_or_not (dict_get md "allowExcessivelyViolentUsage" PNone));
         ("license", dict_get md "licenseUrl" (PStr "--"));
         ("other_permission_url", PStr "--");
         ("other_license_url", PStr "--") ].
Proof.
  destruct meta as [| | | | | |md]; try discriminate.
  unfold VRM1Meta_get_license_info. cbn [get bind].
  destruct (str_join ", " (dict_get md "authors" (PList [PStr "--"])))
    as [author|e] eqn:E; [|discriminate].
  cbn [bind]. intros [= <-]. now exists md, author.
Qed.

Lemma VRM0x_info_shape (percent_decode : string -> string)
  (check_bracketed_netloc checknetloc : string -> bool)
  (meta : pyval) (file_name : string) (info : pydict) :
  VRM0xMeta_get_license_info percent_decode check_bracketed_netloc
    checknetloc meta file_name = Ok info ->
  exists md redistribution,
    meta = PDict md
    /\ legacy_redistribution percent_decode check_bracketed_netloc
         checknetloc (dict_get md "otherPermissionUrl" (PStr ""))
       = Ok redistribution
    /\ info =
       [ ("file_name", PStr file_name);
         ("vrm_version", PStr "0.x");
         ("model_name", dict_get md "title" (PStr "--"));
         ("author", dict_get md "author" (PStr "--"));
         ("contact", dict_get md "contactInformation" (PStr "--"));
         ("reference_url", dict_get md "reference" (PStr "--"));
         ("commercial_usage",
          dict_get md "commercialUssageName" (PStr "--"));
         ("redistribution", PStr redistribution);
         ("credit_notation", dict_get md "creditNotation" (PStr "--"));
         ("modification", dict_get md "modification" (PStr "--"));
         ("avatar_permission", dict_get md "allowedUserName" (PStr "--"));
         ("sexual_expression", dict_get md "sexualUssageName" (PStr "--"));
         ("violence_expression",
          dict_get md "violentUssageName" (PStr "--"));
         ("license", dict_get md "licenseName" (PStr "--"));
         ("other_permission_url",
          dict_get md "otherPermissionUrl" (PStr "--"));
         ("other_license_url", dict_get md "otherLicenseUrl" (PStr "--")) ].
Proof.
  destruct meta as [| | | | | |md]; try discriminate.
  unfold VRM0xMeta_get_license_info. cbn [get bind].
  fold (legacy_redistribution percent_decode check_bracketed_netloc
         checknetloc (dict_get md "otherPermissionUrl" (PStr ""))).
  destruct (legacy_redistribution percent_decode check_bracketed_netloc
              checknetloc (dict_get md "otherPermissionUrl" (PStr "")))
    as [redistribution|e] eqn:E; [|discriminate].
  cbn [bind]. intros [= <-]. now exists md, redistribution.
Qed.

Lemma dict_get_absent (d : pydict) (k : string) (default : pyval) :
  lookup d k = None -> dict_get d k default = default.
Proof. unfold dict_get. now intros ->. Qed.

Lemma dict_get_none (d : pydict) (k : string) (default : pyval) :
  dict_get d k default = PNone -> default <> PNone ->
  lookup d k = Some PNone.
Proof.
  unfold dict_get. destruct (lookup d k) as [v|].
  - now intros ->.
  - intros -> H. now elim H.
Qed.

Lemma allowed_or_not_str (v : pyval) : allowed_or_not v <> PNone.
Proof. unfold allowed_or_not. now destruct (is_none v). Qed.

(** ** VRM 1.0: fields set to the sentinel, and the three permissions *)

(** C10: the unified metadata of a VRM 1.0 file has the sentinel for the
    contact, the reference URL, the other permission URL and the other license
    URL, whatever its meta object contains. *)
Theorem VRM1_constant_fields (meta : pyval) (file_name : string)
  (info : pydict) :
  VRM1Meta_get_license_info meta file_name = Ok info ->
  lookup info "contact" = Some (PStr "--")
  /\ lookup info "reference_url" = Some (PStr "--")
  /\ lookup info "other_permission_url" = Some (PStr "--")
  /\ lookup info "other_license_url" = Some (PStr "--").
Proof.
  intros H. apply VRM1_info_shape in H.
  destruct H as [md [author [_ [_ ->]]]]. repeat split.
Qed.

Lemma current_example_adapted :
  VRM1Meta_get_license_info CurrentExample.meta "avatar.vrm"
  = Ok CurrentExample.info.
Proof. reflexivity. Qed.

Lemma VRM1_constant_fields_witness :
  lookup CurrentExample.info "contact" = Some (PStr "--")
  /\ lookup CurrentExample.info "reference_url" = Some (PStr "--")
  /\ lookup CurrentExample.info "other_permission_url" = Some (PStr "--")
  /\ lookup CurrentExample.info "other_license_url" = Some (PStr "--").
Proof.
  apply (VRM1_constant_fields CurrentExample.meta "avatar.vrm").
  reflexivity.
Defined.

(** C2: for each of the three boolean permissions of a VRM 1.0 file, a
    missing key gives the sentinel, [true] gives "Allowed" and [false] gives
    "Not allowed", and the three outputs are pairwise distinct. *)
Theorem tri_state_mapping (md : pydict) (file_name : string) (info : pydict) :
  VRM1Meta_get_license_info (PDict md) file_name = Ok info ->
  (forall field key, In (field, key) tri_state_fields ->
     (lookup md key = None -> lookup info field = Some (PStr "--"))
     /\ (lookup md key = Some (PBool true) ->
         lookup info field = Some (PStr "Allowed"))
     /\ (lookup md key = Some (PBool false) ->
         lookup info field = Some (PStr "Not allowed")))
  /\ PStr "--" <> PStr "Allowed"
  /\ PStr "--" <> PStr "Not allowed"
  /\ PStr "Allowed" <> PStr "Not allowed".
Proof.
  intros H. apply VRM1_info_shape in H.
  destruct H as [md' [author [[= <-] [_ ->]]]].
  split; [|repeat split; discriminate].
  intros field key [[= <- <-]|[[= <- <-]|[[= <- <-]|[]]]];
    repeat split; intros Hk; cbn [lookup String.eqb Ascii.eqb Bool.eqb];
    unfold dict_get; rewrite Hk; reflexivity.
Qed.

Lemma tri_state_mapping_witness :
  lookup CurrentExample.info "redistribution" = Some (PStr "Not allowed")
  /\ lookup CurrentExample.info "sexual_expression" = Some (PStr "Allowed")
  /\ lookup CurrentExample.info "violence_expression" = Some (PStr "--").
Proof.
  destruct (tri_state_mapping
              [("name", PStr "Avatar");
               ("authors", PList [PStr "Alice"; PStr "Bob"]);
               ("contactInformation", PStr "alice@example.com");
               ("otherLicenseUrl", PStr "https://example.com/license");
               ("allowRedistribution", PBool false);
               ("allowExcessivelySexualUsage", PBool true)]
              "avatar.vrm" CurrentExample.info eq_refl) as [H _].
  split; [|split].
  - apply (H "redistribution" "allowRedistribution"); [now left|reflexivity].
  - apply (H "sexual_expression" "allowExcessivelySexualUsage");
      [right; now left|reflexivity].
  - apply (H "violence_expression" "allowExcessivelyViolentUsage");
      [right; right; now left|reflexivity].
Defined.

(** ** VRM 0.x: the redistribution parameter *)

Lemma qs_get_append (d : list (string * list string)) (n v k : string) :
  qs_get (qs_append d n v) k []
  = if String.eqb k n then (qs_get d k [] ++ [v])%list else qs_get d k [].
Proof.
  induction d as [|[k' vs] r IH]; simpl.
  - now destruct (String.eqb k n).
  - destruct (String.eqb_spec n k') as [->|Hn]; simpl.
    + now destruct (String.eqb k k').
    + destruct (String.eqb_spec k k') as [->|Hk]; [|exact IH].
      destruct (String.eqb_spec k' n) as [->|_]; [now elim Hn|reflexivity].
Qed.

Lemma qs_get_fold (l : list (string * string))
  (d : list (string * list string)) (k : string) :
  qs_get (fold_left (fun d nv => qs_append d (fst nv) (snd nv)) l d) k []
  = (qs_get d k [] ++ values_of k l)%list.
Proof.
  revert d. induction l as [|[n v] l IH]; intros d; simpl.
  - now rewrite app_nil_r.
  - rewrite IH, qs_get_append. unfold values_of. simpl.
    destruct (String.eqb k n); simpl; [|reflexivity].
    now rewrite <- app_assoc.
Qed.

Lemma qs_append_nonempty (d : list (string * list string)) (n v : string) :
  nonempty_values d -> nonempty_values (qs_append d n v).
Proof.
  induction 1 as [|[k vs] r Hk Hr IH]; simpl.
  - repeat constructor. discriminate.
  - destruct (String.eqb n k); constructor; trivial.
    simpl. now destruct vs.
Qed.

Lemma fold_nonempty (l : list (string * string))
  (d : list (string * list string)) :
  nonempty_values d ->
  nonempty_values
    (fold_left (fun d nv => qs_append d (fst nv) (snd nv)) l d).
Proof.
  revert d. induction l as [|nv l IH]; intros d H; simpl; [exact H|].
  now apply IH, qs_append_nonempty.
Qed.

Lemma qs_get_default (d : list (string * list string)) (k : string)
  (default : list string) :
  nonempty_values d ->
  qs_get d k default
  = match qs_get d k [] with [] => default | vs => vs end.
Proof.
  induction 1 as [|[k' vs] r Hk Hr IH]; simpl; [reflexivity|].
  destruct (String.eqb k k'); [|exact IH].
  simpl in Hk. now destruct vs.
Qed.

Lemma parse_qs_first (percent_decode : string -> string)
  (qs k default : string) :
  first (qs_get (parse_qs percent_decode qs) k [default])
  = Ok (hd default (values_of k (parse_qsl percent_decode qs))).
Proof.
  unfold parse_qs.
  rewrite qs_get_default by (apply fold_nonempty; constructor).
  rewrite qs_get_fold. simpl.
  now destruct (values_of k (parse_qsl percent_decode qs)).
Qed.

Lemma legacy_example_adapted :
  VRM0xMeta_get_license_info LegacyExample.percent_decode
    LegacyExample.accept LegacyExample.accept (PDict LegacyExample.meta)
    "avatar.vrm"
  = Ok LegacyExample.info.
Proof. reflexivity. Qed.

(** C8: the redistribution of a VRM 0.x file is the first value of the
    [redistribution] parameter in the query string of its
    [otherPermissionUrl], and the sentinel when the URL is missing or empty or
    has no such parameter.  With the URL
    [https://example.com?redistribution=Allow] it is [Allow]. *)
Theorem legacy_redistribution_from_url
  (percent_decode : string -> string)
  (check_bracketed_netloc checknetloc : string -> bool)
  (md : pydict) (file_name : string) (info : pydict) :
  VRM0xMeta_get_license_info percent_decode check_bracketed_netloc checknetloc
    (PDict md) file_name = Ok info ->
  (exists r,
      lookup info "redistribution" = Some (PStr r)
      /\ match lookup md "otherPermissionUrl" with
         | Some (PStr (String c u)) =>
             exists query,
               urlsplit_query check_bracketed_netloc checknetloc (String c u)
               = Ok query
               /\ r = hd "--" (values_of "redistribution"
                                 (parse_qsl percent_decode query))
         | _ => r = "--"
         end)
  /\ (exists info',
         VRM0xMeta_get_license_info percent_decode check_bracketed_netloc
           checknetloc
           (PDict [("otherPermissionUrl",
                    PStr "https://example.com?redistribution=Allow")])
           file_name = Ok info'
         /\ lookup info' "redistribution" = Some (PStr "Allow"))
  /\ (exists info',
         VRM0xMeta_get_license_info percent_decode check_bracketed_netloc
           checknetloc (PDict []) file_name = Ok info'
         /\ lookup info' "redistribution" = Some (PStr "--")).
Proof.
  intros H. split; [|split; eexists; split; reflexivity].
  apply VRM0x_info_shape in H.
  destruct H as [md' [r [[= <-] [Hr ->]]]].
  exists r. split; [reflexivity|].
  unfold legacy_redistribution, dict_get in Hr.
  destruct (lookup md "otherPermissionUrl") as [v|];
    [|simpl in Hr; congruence].
  destruct v as [|b|z|f|s|l|d]; simpl in Hr.
  - congruence.
  - destruct b; simpl in Hr; [discriminate|congruence].
  - destruct (z =? 0)%Z; simpl in Hr; [congruence|discriminate].
  - destruct f as [m e|neg|]; [|discriminate|discriminate].
    destruct (m =? 0)%Z; simpl in Hr; [congruence|discriminate].
  - destruct s as [|c u]; simpl in Hr; [congruence|].
    destruct (urlsplit_query check_bracketed_netloc checknetloc (String c u))
      as [query|e]; [|discriminate].
    cbn [bind] in Hr. rewrite parse_qs_first in Hr.
    exists query. split; congruence.
  - destruct l; simpl in Hr; [congruence|discriminate].
  - destruct d; simpl in Hr; [congruence|discriminate].
Qed.

Lemma legacy_redistribution_from_url_witness :
  exists r,
    lookup LegacyExample.info "redistribution" = Some (PStr r)
    /\ exists query,
        urlsplit_query LegacyExample.accept LegacyExample.accept
          "https://example.com/terms?lang=en&redistribution=Allow#top"
        = Ok query
        /\ r = hd "--" (values_of "redistribution"
                          (parse_qsl LegacyExample.percent_decode query)).
Proof.
  exact (proj1 (legacy_redistribution_from_url
                  LegacyExample.percent_decode LegacyExample.accept
                  LegacyExample.accept LegacyExample.meta "avatar.vrm"
                  LegacyExample.info eq_refl)).
Defined.

(** ** Both schemas: populated fields *)

(** C3, as stated, fails: a key that is present with the value [null] is
    copied as it is, so the model name of this VRM 1.0 file is [None]. *)
Lemma populated_fields_counterexample :
  exists info,
    VRM1Meta_get_license_info (PDict [("name", PNone)]) "avatar.vrm" = Ok info
    /\ lookup info "model_name" = Some PNone
    /\ In ("model_name", PNone) info.
Proof.
  eexists. split; [reflexivity|]. split; [reflexivity|].
  right. right. now left.
Qed.

Ltac absent_field Hk :=
  cbn [lookup String.eqb Ascii.eqb Bool.eqb];
  rewrite ?(dict_get_absent _ _ _ Hk); reflexivity.

Ltac null_field field key H :=
  exists key; split;
  [ cbn [source_keys In]; tauto
  | apply (dict_get_none _ _ _ H); discriminate ].

(** C3, amended: the record has its sixteen fields; a field whose source key
    is missing from the meta object is the sentinel; and a field is [None]
    only where the meta object has [null] at the key the field is copied
    from. *)
Theorem populated_fields
  (percent_decode : string -> string)
  (check_bracketed_netloc checknetloc : string -> bool)
  (s : schema) (md : pydict) (file_name : string) (info : pydict) :
  get_license_info percent_decode check_bracketed_netloc checknetloc s
    (PDict md) file_name = Ok info ->
  map fst info = CSV_KEYS
  /\ (forall field key, In (field, key) (source_keys s) ->
        lookup md key = None -> lookup info field = Some (PStr "--"))
  /\ (forall field v, In (field, v) info -> v = PNone ->
        exists key, In (field, key) (source_keys s)
                    /\ lookup md key = Some PNone).
Proof.
  intros H. destruct s; simpl in H.
  - apply VRM0x_info_shape in H.
    destruct H as [md' [r [[= <-] [Hr ->]]]].
    split; [reflexivity|]. split.
    + intros field key Hin Hk. cbn [source_keys In] in Hin.
      decompose [or] Hin; try contradiction;
        match goal with E : (_, _) = (_, _) |- _ => injection E as <- <- end;
        try absent_field Hk.
      unfold legacy_redistribution in Hr.
      rewrite (dict_get_absent _ _ _ Hk) in Hr. simpl in Hr.
      injection Hr as <-. reflexivity.
    + intros field v Hin Hv. subst v. cbn [In] in Hin.
      decompose [or] Hin; try contradiction;
        match goal with E : (_, _) = (_, _) |- _ => injection E as <- E' end;
        try discriminate.
      all: match goal with
           | E' : dict_get _ ?key _ = PNone |- _ => null_field field key E'
           end.
  - apply VRM1_info_shape in H.
    destruct H as [md' [author [[= <-] [Ha ->]]]].
    split; [reflexivity|]. split.
    + intros field key Hin Hk. cbn [source_keys In] in Hin.
      decompose [or] Hin; try contradiction;
        match goal with E : (_, _) = (_, _) |- _ => injection E as <- <- end;
        try absent_field Hk.
      rewrite (dict_get_absent _ _ _ Hk) in Ha. injection Ha as <-.
      reflexivity.
    + intros field v Hin Hv. subst v. cbn [In] in Hin.
      decompose [or] Hin; try contradiction;
        match goal with E : (_, _) = (_, _) |- _ => injection E as <- E' end;
        try discriminate;
        try (now elim (allowed_or_not_str _ E')).
      all: match goal with
           | E' : dict_get _ ?key _ = PNone |- _ => null_field field key E'
           end.
Qed.

Lemma populated_fields_witness :
  map fst LegacyExample.info = CSV_KEYS
  /\ (forall field key, In (field, key) (source_keys Legacy) ->
        lookup LegacyExample.meta key = None ->
        lookup LegacyExample.info field = Some (PStr "--"))
  /\ (forall field v, In (field, v) LegacyExample.info -> v = PNone ->
        exists key, In (field, key) (source_keys Legacy)
                    /\ lookup LegacyExample.meta key = Some PNone).
Proof.
  exact (populated_fields LegacyExample.percent_decode LegacyExample.accept
           LegacyExample.accept Legacy LegacyExample.meta "avatar.vrm"
           LegacyExample.info eq_refl).
Defined.

(** ** End-to-end scenarios *)

(** A VRM 0.x file that no rule matches goes to the fallback. *)
Example scenario_fallback :
  sort_files_by_mapdata
    [("models/everyone.vrm",
      Some (PDict [("extensions",
                    PDict [("VRM",
                            PDict [("meta",
                                    PDict [("allowedUserName",
                                            PStr "Everyone")])])])]))]
    (PDict [("mapdata",
             PDict [("unsort", PDict [("target", PDict [])]);
                    ("sorted",
                     PList [PDict [("directory", PStr "folder-1");
                                   ("target",
                                    PDict [("allowedUserName",
                                            PStr "OnlyAuthor")])];
                            PDict [("directory", PStr "DoNotUse");
                                   ("target", PDict [])]])])])
  = ([("models/everyone.vrm", "DoNotUse")], Ok tt).
Proof. reflexivity. Qed.

(** A VRM 1.0 file that a rule matches, case apart, goes to the directory of
    the rule. *)
Example scenario_rule :
  sort_files_by_mapdata
    [("models/private.vrm",
      Some (PDict [("extensions",
                    PDict [("VRMC_vrm",
                            PDict [("meta",
                                    PDict [("commercialUsage",
                                            PStr "Disallow")])])])]))]
    (PDict [("mapdata",
             PDict [("unsort", PDict [("target", PDict [])]);
                    ("sorted",
                     PList [PDict [("directory", PStr "folder-1");
                                   ("target",
                                    PDict [("commercialUsage",
                                            PStr "disallow")])];
                            PDict [("directory", PStr "DoNotUse");
                                   ("target", PDict [])]])])])
  = ([("models/private.vrm", "folder-1")], Ok tt).
Proof. reflexivity. Qed.

(** * Further properties *)

(** ** canonicalize *)


(** ** Reading the container *)

Lemma json_chunk_short (data : list Byte.byte) :
  List.length data < 16 -> json_chunk data = None.
Proof.
  intros H. unfold json_chunk.
  do 12 (destruct data as [|? data]; [reflexivity|]).
  destruct (is_glTF _ _ _ _); [|reflexivity].
  do 4 (destruct data as [|? data]; [reflexivity|]).
  simpl in H. lia.
Qed.

Lemma is_glTF_true (m0 m1 m2 m3 : Byte.byte) :
  is_glTF m0 m1 m2 m3 = true -> [m0; m1; m2; m3] = glTF.
Proof.
  unfold is_glTF. intros H.
  apply andb_true_iff in H. destruct H as [H H3].
  apply andb_true_iff in H. destruct H as [H H2].
  apply andb_true_iff in H. destruct H as [H0 H1].
  apply Byte.byte_dec_bl in H0, H1, H2, H3. now subst.
Qed.

Lemma json_chunk_magic (data : list Byte.byte) :
  firstn 4 data <> glTF -> json_chunk data = None.
Proof.
  intros H. unfold json_chunk.
  do 12 (destruct data as [|? data]; [reflexivity|]).
  destruct (is_glTF b b0 b1 b2) eqn:E; [|reflexivity].
  apply is_glTF_true in E. now elim H.
Qed.

(** X2: a file shorter than sixteen bytes, or whose first four bytes are not
    the magic, loads with neither JSON data nor version; [VRMParser.parse]
    returns [None] for it, and the sorting pass skips it and goes on with the
    next file. *)
Theorem unusable_container_excluded
  (decode_utf8 : list Byte.byte -> option string)
  (json_loads : string -> option pyval)
  (percent_decode : string -> string)
  (check_bracketed_netloc checknetloc : string -> bool)
  (path : string) (data : list Byte.byte)
  (normal_mappings : list pyval) (donotuse_mapping : pyval)
  (rest : list (string * option pyval)) (log : list (string * string)) :
  List.length data < 16 \/ firstn 4 data <> glTF ->
  VRMFile_load_bytes decode_utf8 json_loads path (Some data)
  = {| path := path; json_data := PNone; vrm_version := PNone |}
  /\ VRMParser_parse percent_decode check_bracketed_netloc checknetloc
       (VRMFile_load_bytes decode_utf8 json_loads path (Some data))
     = Ok None
  /\ sort_loop normal_mappings donotuse_mapping
       ((path, parse_container decode_utf8 json_loads data) :: rest) log
     = sort_loop normal_mappings donotuse_mapping rest log.
Proof.
  intros H.
  assert (Hc : json_chunk data = None)
    by (destruct H; [now apply json_chunk_short|now apply json_chunk_magic]).
  unfold VRMFile_load_bytes, parse_container. rewrite Hc.
  repeat split.
Qed.

Lemma unusable_container_excluded_witness :
  VRMFile_load_bytes (fun _ => Some "{}") (fun _ => Some (PDict []))
    "models/a.vrm"
    (Some [Byte.x67; Byte.x6c; Byte.x54; Byte.x47; Byte.x02; Byte.x00;
           Byte.x00; Byte.x00; Byte.x16; Byte.x00; Byte.x00; Byte.x00;
           Byte.x02; Byte.x00; Byte.x00; Byte.x00; Byte.x4a; Byte.x53;
           Byte.x4f; Byte.x4e; Byte.x7b; Byte.x7d])
  = {| path := "models/a.vrm"; json_data := PNone; vrm_version := PNone |}.
Proof.
  apply (unusable_container_excluded
           (fun _ => Some "{}") (fun _ => Some (PDict []))
           (fun s => s) (fun _ => true) (fun _ => true)
           "models/a.vrm"
           [Byte.x67; Byte.x6c; Byte.x54; Byte.x47; Byte.x02; Byte.x00;
            Byte.x00; Byte.x00; Byte.x16; Byte.x00; Byte.x00; Byte.x00;
            Byte.x02; Byte.x00; Byte.x00; Byte.x00; Byte.x4a; Byte.x53;
            Byte.x4f; Byte.x4e; Byte.x7b; Byte.x7d]
           [] PNone [] []).
  right. discriminate.
Defined.

Lemma take_app {A : Type} (n : N) (l extra : list A) :
  (n <= N.of_nat (List.length l))%N -> take n (l ++ extra) = take n l.
Proof.
  revert n. induction l as [|x l IH]; intros n H.
  - simpl in H. assert (n = 0%N) as -> by lia.
    destruct extra; reflexivity.
  - simpl. destruct (N.eqb_spec n 0); [reflexivity|].
    f_equal. apply IH. simpl List.length in H. lia.
Qed.

(** X3: when the file holds the whole chunk that its header announces, the
    bytes after the chunk are ignored. *)
Theorem trailing_bytes_ignored
  (decode_utf8 : list Byte.byte -> option string)
  (json_loads : string -> option pyval)
  (data extra : list Byte.byte) (n : N) :
  json_length data = Some n ->
  (20 + n <= N.of_nat (List.length data))%N ->
  parse_container decode_utf8 json_loads (data ++ extra)
  = parse_container decode_utf8 json_loads data.
Proof.
  intros Hn Hlen. unfold parse_container.
  assert (Hc : json_chunk (data ++ extra) = json_chunk data).
  { unfold json_length in Hn. unfold json_chunk.
    do 12 (destruct data as [|? data]; [discriminate|]).
    simpl in Hn. cbn [app].
    destruct (is_glTF b b0 b1 b2); [|reflexivity].
    do 4 (destruct data as [|? data]; [discriminate|]).
    injection Hn as Hn. cbn [app]. rewrite Hn.
    do 4 (destruct data as [|? data]; [cbn [List.length] in Hlen; lia|]).
    f_equal. cbn [skipn app]. apply take_app.
    cbn [List.length] in Hlen. lia. }
  now rewrite Hc.
Qed.

Lemma trailing_bytes_ignored_witness :
  parse_container (fun _ => Some "{}") (fun _ => Some (PDict []))
    ([Byte.x67; Byte.x6c; Byte.x54; Byte.x46; Byte.x02; Byte.x00;
      Byte.x00; Byte.x00; Byte.x16; Byte.x00; Byte.x00; Byte.x00;
      Byte.x02; Byte.x00; Byte.x00; Byte.x00; Byte.x4a; Byte.x53;
      Byte.x4f; Byte.x4e; Byte.x7b; Byte.x7d] ++ [Byte.x00; Byte.xff])
  = parse_container (fun _ => Some "{}") (fun _ => Some (PDict []))
      [Byte.x67; Byte.x6c; Byte.x54; Byte.x46; Byte.x02; Byte.x00;
       Byte.x00; Byte.x00; Byte.x16; Byte.x00; Byte.x00; Byte.x00;
       Byte.x02; Byte.x00; Byte.x00; Byte.x00; Byte.x4a; Byte.x53;
       Byte.x4f; Byte.x4e; Byte.x7b; Byte.x7d].
Proof.
  apply (trailing_bytes_ignored _ _ _ _ 2%N); [reflexivity|].
  vm_compute. discriminate.
Defined.

(** X4: the version and the total length of the header, and the type of the
    chunk, are not read: other bytes at offsets 4 to 11 and 16 to 19 give the
    same JSON data. *)
Theorem unread_header_fields
  (decode_utf8 : list Byte.byte -> option string)
  (json_loads : string -> option pyval)
  (data fields : list Byte.byte) :
  20 <= List.length data ->
  List.length fields = 12 ->
  parse_container decode_utf8 json_loads (with_unread_fields data fields)
  = parse_container decode_utf8 json_loads data.
Proof.
  intros Hd Hf.
  do 20 (destruct data as [|? data]; [simpl in Hd; lia|]).
  do 12 (destruct fields as [|? fields]; [discriminate|]).
  destruct fields; [|discriminate].
  reflexivity.
Qed.

Lemma unread_header_fields_witness :
  parse_container (fun _ => Some "{}") (fun _ => Some (PDict []))
    (with_unread_fields
       [Byte.x67; Byte.x6c; Byte.x54; Byte.x46; Byte.x02; Byte.x00;
        Byte.x00; Byte.x00; Byte.x16; Byte.x00; Byte.x00; Byte.x00;
        Byte.x02; Byte.x00; Byte.x00; Byte.x00; Byte.x4a; Byte.x53;
        Byte.x4f; Byte.x4e; Byte.x7b; Byte.x7d]
       [Byte.x01; Byte.x01; Byte.x01; Byte.x01; Byte.x01; Byte.x01;
        Byte.x01; Byte.x01; Byte.x01; Byte.x01; Byte.x01; Byte.x01])
  = parse_container (fun _ => Some "{}") (fun _ => Some (PDict []))
      [Byte.x67; Byte.x6c; Byte.x54; Byte.x46; Byte.x02; Byte.x00;
       Byte.x00; Byte.x00; Byte.x16; Byte.x00; Byte.x00; Byte.x00;
       Byte.x02; Byte.x00; Byte.x00; Byte.x00; Byte.x4a; Byte.x53;
       Byte.x4f; Byte.x4e; Byte.x7b; Byte.x7d].
Proof.
  apply unread_header_fields; [simpl; lia | reflexivity].
Defined.

(** ** Versions *)

Lemma detected_version_invariant (j : pyval) (v : string) :
  detect_version j = Ok v ->
  (v = "0.x" \/ v = "1.0")
  /\ truthy j = true
  /\ exists top ext, j = PDict top /\ lookup top "extensions" = Some ext.
Proof.
  unfold detect_version. intros H.
  destruct j as [| | | |s|l|top]; try discriminate.
  - simpl in H. destruct (PyStr.contains s "extensions"); discriminate.
  - simpl in H. destruct (existsb _ l); discriminate.
  - simpl in H. unfold has_key in H.
    destruct (lookup top "extensions") as [ext|] eqn:E; [|discriminate].
    simpl in H.
    assert (Hv : v = "0.x" \/ v = "1.0").
    { destruct (contains ext "VRM") as [[|]|e]; simpl in H;
        try discriminate.
      - left. congruence.
      - destruct (contains ext "VRMC_vrm") as [[|]|e]; simpl in H;
          try discriminate. right. congruence. }
    split; [exact Hv|]. split.
    + destruct top; [discriminate|reflexivity].
    + now exists top, ext.
Qed.

Lemma recognised_detected (filepath : string) (parsed : option pyval) :
  recognised (filepath, parsed)
  = match parsed with
    | Some j => match detect_version j with Ok _ => true | Raise _ => false end
    | None => false
    end.
Proof.
  unfold recognised, VRMFile_load. simpl.
  destruct parsed as [j|]; [|reflexivity]. simpl.
  destruct (detect_version j) as [v|e] eqn:E; simpl.
  - destruct (detected_version_invariant j v E) as [Hv [Ht _]].
    rewrite Ht. destruct Hv as [-> | ->]; reflexivity.
  - now rewrite andb_false_r.
Qed.

(** X5: the sorting pass processes a file exactly when its version was
    detected; a file with a version always has JSON data, so the test of the
    data in the guard of the pass decides nothing. *)
Theorem recognised_iff_version (filepath : string) (parsed : option pyval) :
  recognised (filepath, parsed)
  = negb (is_none (vrm_version (VRMFile_load filepath parsed))).
Proof.
  rewrite recognised_detected. unfold VRMFile_load.
  destruct parsed as [j|]; [|reflexivity]. simpl.
  now destruct (detect_version j).
Qed.

(** ** The parser *)

(** X6: when [VRMParser.parse] returns a record for a loaded file, the record
    has the base name of the path and the version of the file, and the CSV row
    built from it is the sixteen fields of the record in order: the default of
    the row is never used. *)
Theorem parse_tags_and_row
  (percent_decode : string -> string)
  (check_bracketed_netloc checknetloc : string -> bool)
  (filepath : string) (parsed : option pyval) (info : pydict) :
  VRMParser_parse percent_decode check_bracketed_netloc checknetloc
    (VRMFile_load filepath parsed) = Ok (Some info) ->
  lookup info "file_name" = Some (PStr (basename filepath))
  /\ lookup info "vrm_version"
     = Some (vrm_version (VRMFile_load filepath parsed))
  /\ csv_row info = map snd info
  /\ List.length (csv_row info) = 16.
Proof.
  unfold VRMParser_parse, VRMFile_load.
  destruct parsed as [j|]; [|discriminate]. simpl.
  destruct (detect_version j) as [v|e] eqn:E; [|discriminate].
  destruct (detected_version_invariant j v E) as [[-> | ->] _]; simpl.
  - destruct (VRM0xMeta_init j) as [meta|e]; [|discriminate]. simpl.
    destruct (VRM0xMeta_get_license_info percent_decode
                check_bracketed_netloc checknetloc meta (basename filepath))
      as [i|e] eqn:Ei; [|discriminate].
    simpl. intros [= <-]. apply VRM0x_info_shape in Ei.
    destruct Ei as [md [r [_ [_ ->]]]]. repeat split.
  - destruct (VRM1Meta_init j) as [meta|e]; [|discriminate]. simpl.
    destruct (VRM1Meta_get_license_info meta (basename filepath))
      as [i|e] eqn:Ei; [|discriminate].
    simpl. intros [= <-]. apply VRM1_info_shape in Ei.
    destruct Ei as [md [a [_ [_ ->]]]]. repeat split.
Qed.

Lemma parse_tags_and_row_witness :
  csv_row CurrentExample.info = map snd CurrentExample.info.
Proof.
  apply (parse_tags_and_row (fun s => s) (fun _ => true) (fun _ => true)
           "models/avatar.vrm"
           (Some (PDict [("extensions",
                          PDict [("VRMC_vrm",
                                  PDict [("meta", CurrentExample.meta)])])]))
           CurrentExample.info).
  reflexivity.
Defined.

(** X7: [VRMParser.parse] returns [None] exactly for the files that the
    sorting pass skips. *)
Theorem parse_none_iff_skipped
  (percent_decode : string -> string)
  (check_bracketed_netloc checknetloc : string -> bool)
  (filepath : string) (parsed : option pyval) :
  VRMParser_parse percent_decode check_bracketed_netloc checknetloc
    (VRMFile_load filepath parsed) = Ok None
  <-> recognised (filepath, parsed) = false.
Proof.
  rewrite recognised_detected.
  unfold VRMParser_parse, VRMFile_load.
  destruct parsed as [j|]; [|simpl; tauto]. simpl.
  destruct (detect_version j) as [v|e] eqn:E; [|simpl; tauto].
  destruct (detected_version_invariant j v E) as [[-> | ->] _]; simpl.
  - split; [|discriminate].
    destruct (VRM0xMeta_init j) as [meta|e]; [|discriminate]. simpl.
    destruct (VRM0xMeta_get_license_info _ _ _ meta _); discriminate.
  - split; [|discriminate].
    destruct (VRM1Meta_init j) as [meta|e]; [|discriminate]. simpl.
    destruct (VRM1Meta_get_license_info meta _); discriminate.
Qed.

Lemma parse_none_iff_skipped_witness :
  VRMParser_parse (fun s => s) (fun _ => true) (fun _ => true)
    (VRMFile_load "scene.glb"
       (Some (PDict [("asset", PDict [("version", PStr "2.0")])])))
  = Ok None.
Proof.
  apply (proj2 (parse_none_iff_skipped (fun s => s) (fun _ => true)
                  (fun _ => true) "scene.glb"
                  (Some (PDict [("asset", PDict [("version", PStr "2.0")])])))).
  reflexivity.
Defined.

Lemma meta_init_inv (s : schema) (j meta : pyval) :
  meta_init s j = Ok meta ->
  exists top ext container,
    j = PDict top
    /\ lookup top "extensions" = Some (PDict ext)
    /\ lookup ext (marker s) = Some (PDict container)
    /\ lookup container "meta" = Some meta.
Proof.
  intros H.
  assert (H' : (ext <- getitem j "extensions" ;;
                vrm <- getitem ext (marker s) ;;
                getitem vrm "meta") = Ok meta)
    by (destruct s; exact H).
  clear H. destruct j as [| | | | | |top]; try discriminate.
  simpl in H'.
  destruct (lookup top "extensions") as [ext|] eqn:Ee; [|discriminate].
  simpl in H'. destruct ext as [| | | | | |ext]; try discriminate.
  simpl in H'.
  destruct (lookup ext (marker s)) as [c|] eqn:Ec; [|discriminate].
  simpl in H'. destruct c as [| | | | | |c]; try discriminate.
  simpl in H'.
  destruct (lookup c "meta") as [m|] eqn:Em; [|discriminate].
  injection H' as <-. now exists top, ext, c.
Qed.

(** X8: whenever the parser of the version of a file finds the meta object,
    the sorting pass classifies the file on the same object. *)
Theorem parser_and_sorter_same_meta (s : schema) (filepath : string)
  (j meta : pyval) :
  vrm_version (VRMFile_load filepath (Some j)) = PStr (version_tag s) ->
  meta_init s j = Ok meta ->
  file_meta (VRMFile_load filepath (Some j)) = Ok meta.
Proof.
  intros Hv Hi. apply meta_init_inv in Hi.
  destruct Hi as [top [ext [c [-> [He [Hm Hc]]]]]].
  unfold file_meta. rewrite Hv. unfold VRMFile_load, json_data.
  cbn [get bind]. unfold dict_get. rewrite He. cbn [get bind].
  destruct s; simpl in Hm |- *; unfold dict_get; rewrite Hm; cbn [get bind];
    unfold dict_get; now rewrite Hc.
Qed.

Lemma parser_and_sorter_same_meta_witness :
  file_meta
    (VRMFile_load "models/avatar.vrm"
       (Some (PDict [("extensions",
                      PDict [("VRMC_vrm",
                              PDict [("meta", CurrentExample.meta)])])])))
  = Ok CurrentExample.meta.
Proof.
  apply (parser_and_sorter_same_meta Current); reflexivity.
Defined.

(** X9: a file of a known version whose container has no [meta] key makes
    [VRMParser.parse] raise [KeyError], where the sorting pass takes the
    metadata to be empty. *)
Theorem missing_meta_parse_raises
  (percent_decode : string -> string)
  (check_bracketed_netloc checknetloc : string -> bool)
  (s : schema) (filepath : string) (top ext container : pydict) :
  vrm_version (VRMFile_load filepath (Some (PDict top)))
  = PStr (version_tag s) ->
  lookup top "extensions" = Some (PDict ext) ->
  lookup ext (marker s) = Some (PDict container) ->
  lookup container "meta" = None ->
  VRMParser_parse percent_decode check_bracketed_netloc checknetloc
    (VRMFile_load filepath (Some (PDict top))) = Raise KeyError
  /\ file_meta (VRMFile_load filepath (Some (PDict top))) = Ok (PDict []).
Proof.
  intros Hv He Hm Hc. split.
  - unfold VRMParser_parse. rewrite Hv.
    unfold VRMFile_load, json_data.
    destruct s; simpl; unfold VRM0xMeta_init, VRM1Meta_init;
      cbn [getitem bind]; rewrite He; cbn [getitem bind];
      simpl in Hm; rewrite Hm; cbn [getitem bind]; now rewrite Hc.
  - unfold file_meta. rewrite Hv. unfold VRMFile_load, json_data.
    cbn [get bind]. unfold dict_get. rewrite He. cbn [get bind].
    destruct s; simpl in Hm |- *; unfold dict_get; rewrite Hm; cbn [get bind];
      unfold dict_get; now rewrite Hc.
Qed.

Lemma missing_meta_parse_raises_witness :
  VRMParser_parse (fun s => s) (fun _ => true) (fun _ => true)
    (VRMFile_load "models/bare.vrm"
       (Some (PDict [("extensions",
                      PDict [("VRM", PDict [("specVersion", PStr "0.0")])])])))
  = Raise KeyError.
Proof.
  apply (missing_meta_parse_raises (fun s => s) (fun _ => true)
           (fun _ => true) Legacy "models/bare.vrm"
           [("extensions",
             PDict [("VRM", PDict [("specVersion", PStr "0.0")])])]
           [("VRM", PDict [("specVersion", PStr "0.0")])]
           [("specVersion", PStr "0.0")]);
    reflexivity.
Defined.

(** ** Base names *)

Lemma has_char_app (c : ascii) (a b : string) :
  PyStr.has_char c (a ++ b) = PyStr.has_char c a || PyStr.has_char c b.
Proof.
  induction a as [|d a IH]; simpl; [reflexivity|].
  now rewrite IH, orb_assoc.
Qed.

Lemma basename_no_slash (p : string) :
  PyStr.has_char "/" (basename p) = false.
Proof.
  induction p as [|c r IH]; [reflexivity|].
  simpl basename.
  destruct (PyStr.has_char "/" r) eqn:Er; [exact IH|].
  destruct (Ascii.eqb c "/") eqn:Ec; [exact Er|].
  cbn [PyStr.has_char]. rewrite Ascii.eqb_sym, Ec. exact Er.
Qed.

(** The base name of a path is what follows its last slash: it has no
    slash, a name without a slash is its own base name, and putting a
    directory before such a name does not change the base name. *)
Theorem basename_last_component (dir name : string) :
  PyStr.has_char "/" name = false ->
  basename (dir ++ "/" ++ name) = name
  /\ basename name = name
  /\ forall p, PyStr.has_char "/" (basename p) = false.
Proof.
  intros Hn. split; [|split; [|exact basename_no_slash]].
  - induction dir as [|c d IH].
    + change (basename (String "/" name) = name).
      cbn [basename]. now rewrite Hn.
    + change (basename (String c (d ++ "/" ++ name)) = name).
      cbn [basename]. rewrite has_char_app.
      change (PyStr.has_char "/" ("/" ++ name)) with true.
      now rewrite orb_true_r.
  - destruct name as [|c r]; [reflexivity|].
    cbn [PyStr.has_char] in Hn. apply orb_false_iff in Hn.
    destruct Hn as [Hc Hr].
    cbn [basename]. rewrite Hr. now rewrite Ascii.eqb_sym, Hc.
Qed.

Lemma basename_last_component_witness :
  basename ("models/set-1" ++ "/" ++ "avatar.vrm") = "avatar.vrm".
Proof.
  apply (basename_last_component "models/set-1" "avatar.vrm"). reflexivity.
Defined.

(** ** Matching *)

Lemma normalize_twice (value : pyval) :
  normalize_for_compare (normalize_for_compare value)
  = normalize_for_compare value.
Proof.
  destruct value as [| | | |s| |]; try reflexivity.
  unfold normalize_for_compare.
  destruct (String.eqb (PyStr.lower (PyStr.strip s)) "true") eqn:Et;
    [reflexivity|].
  destruct (String.eqb (PyStr.lower (PyStr.strip s)) "false") eqn:Ef;
    [reflexivity|].
  now rewrite PyStrFacts.lower_strip_idem, Et, Ef.
Qed.

Lemma normalize_str (s : string) :
  normalize_for_compare (PStr s)
  = if String.eqb (PyStr.lower (PyStr.strip s)) "true" then PBool true
    else if String.eqb (PyStr.lower (PyStr.strip s)) "false" then PBool false
    else PStr (PyStr.lower (PyStr.strip s)).
Proof. reflexivity. Qed.

(** X10: two strings match exactly when they are equal once trimmed and
    lower-cased, and a JSON boolean of the file matches the strings that are
    its name once trimmed and lower-cased, and no other string. *)
Theorem string_conditions_ignore_case (s t : string) (b : bool) :
  condition_matches (normalize_for_compare (PStr s)) (PStr t)
  = String.eqb (PyStr.lower (PyStr.strip s)) (PyStr.lower (PyStr.strip t))
  /\ condition_matches (normalize_for_compare (PBool b)) (PStr t)
     = String.eqb (PyStr.lower (PyStr.strip t))
         (if b then "true" else "false").
Proof.
  change (condition_matches (normalize_for_compare (PStr s)) (PStr t))
    with (py_eq (normalize_for_compare (PStr s))
            (normalize_for_compare (PStr t))).
  change (condition_matches (normalize_for_compare (PBool b)) (PStr t))
    with (py_eq (PBool b) (normalize_for_compare (PStr t))).
  rewrite !normalize_str.
  generalize (PyStr.lower (PyStr.strip s)) as v.
  generalize (PyStr.lower (PyStr.strip t)) as w.
  intros w v. split.
  - destruct (String.eqb_spec v w) as [->|Hne].
    + destruct (String.eqb w "true"); [reflexivity|].
      destruct (String.eqb w "false"); [reflexivity|].
      simpl. apply String.eqb_refl.
    + destruct (String.eqb_spec v "true") as [Ev|Ev];
        destruct (String.eqb_spec w "true") as [Ew|Ew];
        destruct (String.eqb_spec v "false") as [Ev'|Ev'];
        destruct (String.eqb_spec w "false") as [Ew'|Ew'];
        try reflexivity; try congruence.
      simpl. now apply String.eqb_neq.
  - destruct b;
      destruct (String.eqb_spec w "true") as [Ew|Ew];
      destruct (String.eqb_spec w "false") as [Ew'|Ew'];
      try reflexivity; congruence.
Qed.

Lemma lookup_normalize_values (md : pydict) (k : string) :
  lookup (normalize_values md) k
  = option_map normalize_for_compare (lookup md k).
Proof.
  induction md as [|[k' v] r IH]; simpl; [reflexivity|].
  now destruct (String.eqb k k').
Qed.

Lemma is_none_normalize (v : pyval) :
  is_none (normalize_for_compare v) = is_none v.
Proof.
  destruct v as [| | | |s| |]; try reflexivity.
  unfold normalize_for_compare.
  destruct (String.eqb _ "true"); [reflexivity|].
  now destruct (String.eqb _ "false").
Qed.

Lemma eval_target_normalize_values (md target_items : pydict) (n : nat) :
  eval_target (PDict (normalize_values md)) target_items n
  = eval_target (PDict md) target_items n.
Proof.
  revert n. induction target_items as [|[k mv] rest IH]; intros n;
    [reflexivity|].
  cbn [eval_target contains getitem bind]. unfold has_key.
  rewrite lookup_normalize_values.
  destruct (lookup md k) as [fv|]; cbn [option_map bind]; [|apply IH].
  rewrite is_none_normalize, normalize_twice.
  destruct (is_none fv); [reflexivity|].
  destruct (condition_matches (normalize_for_compare fv) mv);
    [apply IH|reflexivity].
Qed.

(** X11: a file is classified the same way when the values of its metadata
    are normalized beforehand: white space around a value and its case never
    change the destination. *)
Theorem normalized_metadata_same_destination (md : pydict)
  (normal_mappings : list pyval) (donotuse_mapping : pyval) :
  classify (PDict (normalize_values md)) normal_mappings donotuse_mapping
  = classify (PDict md) normal_mappings donotuse_mapping.
Proof.
  unfold classify. f_equal.
  induction normal_mappings as [|m rest IH]; [reflexivity|].
  cbn [try_mappings]. rewrite IH. f_equal.
  unfold try_mapping, all_match.
  destruct (get m "target" (PDict [])) as [t|e]; [|reflexivity].
  cbn [bind]. destruct (negb (truthy t)); [reflexivity|].
  destruct (items t) as [its|e]; [|reflexivity].
  cbn [bind]. now rewrite eval_target_normalize_values.
Qed.

(** ** Destinations *)

Lemma try_mapping_some (meta mapping : pyval) (d : string) :
  try_mapping meta mapping = Ok (Some d) ->
  all_match meta mapping = Ok true
  /\ get mapping "directory" PNone = Ok (PStr d)
  /\ d <> "".
Proof.
  unfold try_mapping.
  destruct (all_match meta mapping) as [[|]|e]; try discriminate.
  cbn [bind].
  destruct (get mapping "directory" PNone) as [dir|e]; [|discriminate].
  cbn [bind]. destruct (truthy dir) eqn:Et; [|discriminate].
  destruct dir; try discriminate. simpl. intros [= ->].
  repeat split. intros ->. discriminate.
Qed.

Lemma try_mappings_some (meta : pyval) (normal_mappings : list pyval)
  (d : string) :
  try_mappings meta normal_mappings = Ok (Some d) ->
  exists mapping,
    In mapping normal_mappings
    /\ all_match meta mapping = Ok true
    /\ get mapping "directory" PNone = Ok (PStr d)
    /\ d <> "".
Proof.
  induction normal_mappings as [|m rest IH]; [discriminate|].
  cbn [try_mappings].
  destruct (try_mapping meta m) as [[d'|]|e] eqn:E; cbn [bind];
    try discriminate.
  - intros [= ->]. exists m. split; [now left|].
    now apply try_mapping_some.
  - intros H. destruct (IH H) as [m' [Hin Hm']].
    exists m'. split; [now right|exact Hm'].
Qed.

Lemma separate_mappings_donotuse (sorted_mappings : list pyval) :
  forall donotuse normal donotuse' normal',
    separate_mappings sorted_mappings donotuse normal
    = Ok (donotuse', normal') ->
    donotuse' = donotuse \/ is_donotuse donotuse' = true.
Proof.
  induction sorted_mappings as [|m rest IH];
    intros donotuse normal donotuse' normal' H.
  - injection H as <- _. now left.
  - destruct m as [| | | | | |d]; try discriminate.
    cbn [separate_mappings get bind] in H.
    destruct (py_eq (dict_get d "directory" PNone) (PStr "DoNotUse")
              && negb (truthy (dict_get d "target" (PDict [])))) eqn:E.
    + destruct (IH _ _ _ _ H) as [-> | Hd]; right; [exact E|exact Hd].
    + exact (IH _ _ _ _ H).
Qed.

Lemma is_donotuse_classify (meta : pyval) (normal_mappings : list pyval)
  (donotuse_mapping : pyval) :
  is_donotuse donotuse_mapping = true ->
  try_mappings meta normal_mappings = Ok None ->
  classify meta normal_mappings donotuse_mapping
  = Ok (MovedDoNotUse "DoNotUse").
Proof.
  intros Hd Ht. unfold classify. rewrite Ht. cbn [bind].
  destruct donotuse_mapping as [| | | | | |d]; try discriminate.
  simpl in Hd. apply andb_true_iff in Hd. destruct Hd as [Hdir _].
  cbn [get bind].
  destruct (dict_get d "directory" PNone) as [| | | |s| |] eqn:E;
    try discriminate.
  simpl in Hdir. apply String.eqb_eq in Hdir. subst s.
  assert (Hne : d <> []) by (intros ->; discriminate).
  destruct d; [contradiction|reflexivity].
Qed.

Lemma load_mappings_donotuse (mapdata donotuse_mapping : pyval)
  (normal_mappings : list pyval) :
  load_mappings mapdata = Ok (donotuse_mapping, normal_mappings) ->
  donotuse_mapping = PNone \/ is_donotuse donotuse_mapping = true.
Proof.
  intros Hl. unfold load_mappings in Hl.
  destruct (get mapdata "mapdata" (PDict [])) as [sec|e]; [|discriminate].
  cbn [bind] in Hl.
  destruct (get sec "sorted" (PList [])) as [sorted|e]; [|discriminate].
  cbn [bind] in Hl.
  destruct (iterate sorted) as [entries|e]; [|discriminate].
  cbn [bind] in Hl. exact (separate_mappings_donotuse _ _ _ _ _ Hl).
Qed.

Lemma classify_cases (meta : pyval) (normal_mappings : list pyval)
  (donotuse_mapping : pyval) (r : destination) :
  donotuse_mapping = PNone \/ is_donotuse donotuse_mapping = true ->
  classify meta normal_mappings donotuse_mapping = Ok r ->
  match r with
  | Moved d =>
      exists mapping,
        In mapping normal_mappings
        /\ all_match meta mapping = Ok true
        /\ get mapping "directory" PNone = Ok (PStr d)
        /\ d <> ""
  | MovedDoNotUse d => d = "DoNotUse"
  | NotMoved => donotuse_mapping = PNone
  end.
Proof.
  intros Hd Hc.
  destruct (try_mappings meta normal_mappings) as [[d|]|e] eqn:Et.
  - unfold classify in Hc. rewrite Et in Hc. injection Hc as <-.
    now apply try_mappings_some.
  - destruct Hd as [-> | Hd].
    + unfold classify in Hc. rewrite Et in Hc. injection Hc as <-.
      reflexivity.
    + rewrite (is_donotuse_classify _ _ _ Hd Et) in Hc.
      injection Hc as <-. reflexivity.
  - unfold classify in Hc. rewrite Et in Hc. discriminate.
Qed.

(** X12: the pass never invents a destination.  With the mappings read from
    a mapdata record, a file moved by a rule goes to the directory, not
    empty, of a rule of the record that fully matches it; a file moved to the
    fallback goes to "DoNotUse"; and a file stays where it is only when the
    record has no fallback. *)
Theorem destinations_come_from_mapdata (mapdata meta : pyval)
  (donotuse_mapping : pyval) (normal_mappings : list pyval)
  (r : destination) :
  load_mappings mapdata = Ok (donotuse_mapping, normal_mappings) ->
  classify meta normal_mappings donotuse_mapping = Ok r ->
  match r with
  | Moved d =>
      exists mapping,
        In mapping normal_mappings
        /\ all_match meta mapping = Ok true
        /\ get mapping "directory" PNone = Ok (PStr d)
        /\ d <> ""
  | MovedDoNotUse d => d = "DoNotUse"
  | NotMoved => donotuse_mapping = PNone
  end.
Proof.
  intros Hl Hc. apply load_mappings_donotuse in Hl.
  destruct r; exact (classify_cases _ _ _ _ Hl Hc).
Qed.

Lemma destinations_come_from_mapdata_witness :
  exists mapping,
    In mapping
      [PDict [("directory", PStr "folder-1");
              ("target", PDict [("licenseName", PStr "CC0")])]]
    /\ all_match (PDict [("licenseName", PStr " cc0 ")]) mapping = Ok true
    /\ get mapping "directory" PNone = Ok (PStr "folder-1")
    /\ "folder-1" <> "".
Proof.
  exact (destinations_come_from_mapdata
           (PDict [("mapdata",
                    PDict [("sorted",
                            PList [PDict [("directory", PStr "folder-1");
                                          ("target",
                                           PDict [("licenseName",
                                                   PStr "CC0")])];
                                   PDict [("directory", PStr "DoNotUse")]])])])
           (PDict [("licenseName", PStr " cc0 ")])
           (PDict [("directory", PStr "DoNotUse")])
           [PDict [("directory", PStr "folder-1");
                   ("target", PDict [("licenseName", PStr "CC0")])]]
           (Moved "folder-1") eq_refl eq_refl).
Defined.

(** ** The sorting pass *)

Lemma sort_loop_cons (normal_mappings : list pyval) (donotuse_mapping : pyval)
  (filepath : string) (parsed : option pyval)
  (rest : list (string * option pyval)) (log : list (string * string)) :
  sort_loop normal_mappings donotuse_mapping ((filepath, parsed) :: rest) log
  = if negb (recognised (filepath, parsed))
    then sort_loop normal_mappings donotuse_mapping rest log
    else match (meta <- file_meta (VRMFile_load filepath parsed) ;;
                classify meta normal_mappings donotuse_mapping) with
         | Raise e => (log, Raise e)
         | Ok (Moved d) | Ok (MovedDoNotUse d) =>
             sort_loop normal_mappings donotuse_mapping rest
               (log ++ [(filepath, d)])%list
         | Ok NotMoved =>
             sort_loop normal_mappings donotuse_mapping rest log
         end.
Proof. reflexivity. Qed.

(** X13: sorting a list of files in two runs, the second after the first has
    ended without an exception, does what one run over the whole list does;
    after an exception no further file is touched. *)
Theorem sort_loop_app (normal_mappings : list pyval)
  (donotuse_mapping : pyval) (first_files more_files : list (string * option pyval))
  (log : list (string * string)) :
  sort_loop normal_mappings donotuse_mapping (first_files ++ more_files) log
  = match sort_loop normal_mappings donotuse_mapping first_files log with
    | (log', Ok _) =>
        sort_loop normal_mappings donotuse_mapping more_files log'
    | (log', Raise e) => (log', Raise e)
    end.
Proof.
  revert log. induction first_files as [|[p parsed] rest IH]; intros log.
  - reflexivity.
  - change (((p, parsed) :: rest) ++ more_files)%list
      with ((p, parsed) :: (rest ++ more_files))%list.
    rewrite !sort_loop_cons.
    destruct (negb (recognised (p, parsed))); [apply IH|].
    destruct (meta <- file_meta (VRMFile_load p parsed) ;;
              classify meta normal_mappings donotuse_mapping)
      as [[d|d|]|e]; try apply IH. reflexivity.
Qed.

Lemma sort_loop_moves (normal_mappings : list pyval)
  (donotuse_mapping : pyval) (file_list : list (string * option pyval)) :
  forall log0 log r,
    sort_loop normal_mappings donotuse_mapping file_list log0 = (log, r) ->
    exists moves,
      log = (log0 ++ moves)%list
      /\ forall p d, In (p, d) moves ->
           exists parsed meta,
             In (p, parsed) file_list
             /\ recognised (p, parsed) = true
             /\ file_meta (VRMFile_load p parsed) = Ok meta
             /\ (classify meta normal_mappings donotuse_mapping
                 = Ok (Moved d)
                 \/ classify meta normal_mappings donotuse_mapping
                    = Ok (MovedDoNotUse d)).
Proof.
  induction file_list as [|[p parsed] rest IH]; intros log0 log r H.
  - injection H as <- _. exists []. split; [now rewrite app_nil_r|].
    intros ? ? [].
  - rewrite sort_loop_cons in H.
    assert (Hskip : forall log1,
              sort_loop normal_mappings donotuse_mapping rest log1 = (log, r)
              -> log1 = log0 ->
              exists moves,
                log = (log0 ++ moves)%list
                /\ forall p' d, In (p', d) moves ->
                     exists parsed' meta,
                       In (p', parsed') ((p, parsed) :: rest)
                       /\ recognised (p', parsed') = true
                       /\ file_meta (VRMFile_load p' parsed') = Ok meta
                       /\ (classify meta normal_mappings donotuse_mapping
                           = Ok (Moved d)
                           \/ classify meta normal_mappings donotuse_mapping
                              = Ok (MovedDoNotUse d))).
    { intros log1 H1 ->. destruct (IH _ _ _ H1) as [moves [-> Hm]].
      exists moves. split; [reflexivity|].
      intros p' d Hin. destruct (Hm p' d Hin) as [pa [me [Hi Hr]]].
      exists pa, me. split; [now right|exact Hr]. }
    destruct (recognised (p, parsed)) eqn:Er; cbn [negb] in H;
      [|now apply (Hskip log0)].
    destruct (file_meta (VRMFile_load p parsed)) as [meta|e] eqn:Em;
      cbn [bind] in H.
    + assert (Hmove : forall d,
                (classify meta normal_mappings donotuse_mapping = Ok (Moved d)
                 \/ classify meta normal_mappings donotuse_mapping
                    = Ok (MovedDoNotUse d)) ->
                sort_loop normal_mappings donotuse_mapping rest
                  (log0 ++ [(p, d)])%list = (log, r) ->
                exists moves,
                  log = (log0 ++ moves)%list
                  /\ forall p' d', In (p', d') moves ->
                       exists parsed' meta',
                         In (p', parsed') ((p, parsed) :: rest)
                         /\ recognised (p', parsed') = true
                         /\ file_meta (VRMFile_load p' parsed') = Ok meta'
                         /\ (classify meta' normal_mappings donotuse_mapping
                             = Ok (Moved d')
                             \/ classify meta' normal_mappings
                                  donotuse_mapping
                                = Ok (MovedDoNotUse d'))).
      { intros d Hc H1. destruct (IH _ _ _ H1) as [moves [-> Hm]].
        exists ((p, d) :: moves). split; [now rewrite <- app_assoc|].
        intros p' d' [[= <- <-]|Hin].
        - exists parsed, meta. split; [now left|]. now repeat split.
        - destruct (Hm p' d' Hin) as [pa [me [Hi Hr]]].
          exists pa, me. split; [now right|exact Hr]. }
      destruct (classify meta normal_mappings donotuse_mapping)
        as [[d|d|]|e] eqn:Ec.
      * apply (Hmove d); [now left|exact H].
      * apply (Hmove d); [now right|exact H].
      * now apply (Hskip log0).
      * injection H as <- _. exists []. split; [now rewrite app_nil_r|].
        intros ? ? [].
    + injection H as <- _. exists []. split; [now rewrite app_nil_r|].
      intros ? ? [].
Qed.

(** X14: whatever the mapdata record and however the pass ends, every move
    it has done is the move of a file of the list whose version was detected,
    to a directory that is not empty and is "DoNotUse" or the directory of a
    rule of the record. *)
Theorem only_recognised_files_move
  (file_list : list (string * option pyval)) (mapdata : pyval)
  (donotuse_mapping : pyval) (normal_mappings : list pyval)
  (log : list (string * string)) (r : result unit) :
  load_mappings mapdata = Ok (donotuse_mapping, normal_mappings) ->
  sort_files_by_mapdata file_list mapdata = (log, r) ->
  forall p d, In (p, d) log ->
    (exists parsed, In (p, parsed) file_list
                    /\ recognised (p, parsed) = true)
    /\ d <> ""
    /\ (d = "DoNotUse"
        \/ exists mapping,
            In mapping normal_mappings
            /\ get mapping "directory" PNone = Ok (PStr d)).
Proof.
  intros Hl Hs p d Hin. unfold sort_files_by_mapdata in Hs.
  rewrite Hl in Hs. apply sort_loop_moves in Hs.
  destruct Hs as [moves [-> Hm]]. simpl in Hin.
  destruct (Hm p d Hin) as [parsed [meta [Hi [Hr [_ Hc]]]]].
  split; [now exists parsed|].
  destruct Hc as [Hc|Hc];
    pose proof (classify_cases _ _ _ _ (load_mappings_donotuse _ _ _ Hl) Hc)
      as Hd;
    simpl in Hd.
  - destruct Hd as [m [Hm1 [_ [Hm2 Hm3]]]]. split; [exact Hm3|].
    right. now exists m.
  - subst d. split; [discriminate|now left].
Qed.

Lemma only_recognised_files_move_witness :
  (exists parsed,
      In ("one.vrm", parsed) MalformedExample.file_list
      /\ recognised ("one.vrm", parsed) = true)
  /\ "a" <> ""
  /\ ("a" = "DoNotUse"
      \/ exists mapping,
          In mapping
            [PDict [("directory", PStr "a");
                    ("target", PDict [("licenseName", PStr "CC0")])];
             PDict [("directory", PStr "b");
                    ("target", PList [PStr "licenseName"])]]
          /\ get mapping "directory" PNone = Ok (PStr "a")).
Proof.
  apply (only_recognised_files_move MalformedExample.file_list
           MalformedExample.bad_conditions PNone
           [PDict [("directory", PStr "a");
                   ("target", PDict [("licenseName", PStr "CC0")])];
            PDict [("directory", PStr "b");
                   ("target", PList [PStr "licenseName"])]]
           [("one.vrm", "a")] (Raise AttributeError) eq_refl eq_refl).
  now left.
Defined.

Lemma sort_loop_all_moved (normal_mappings : list pyval)
  (donotuse_mapping : pyval) :
  (forall meta,
      classify meta normal_mappings donotuse_mapping <> Ok NotMoved) ->
  forall file_list log0 log,
    sort_loop normal_mappings donotuse_mapping file_list log0 = (log, Ok tt) ->
    map fst log
    = (map fst log0 ++ map fst (filter recognised file_list))%list.
Proof.
  intros Hnever. induction file_list as [|[p parsed] rest IH];
    intros log0 log H.
  - injection H as <-. now rewrite app_nil_r.
  - rewrite sort_loop_cons in H. cbn [filter].
    destruct (recognised (p, parsed)); cbn [negb] in H; [|now apply IH].
    destruct (file_meta (VRMFile_load p parsed)) as [meta|e];
      cbn [bind] in H; [|discriminate].
    specialize (Hnever meta).
    destruct (classify meta normal_mappings donotuse_mapping)
      as [[d|d|]|e]; try discriminate; try contradiction.
    + rewrite (IH _ _ H), map_app. cbn [map fst]. now rewrite <- app_assoc.
    + rewrite (IH _ _ H), map_app. cbn [map fst]. now rewrite <- app_assoc.
Qed.

(** X15: when the mapdata record has a fallback and the pass ends without an
    exception, the files moved are exactly the files whose version was
    detected, each once and in the order of the list: no such file stays in
    place. *)
Theorem fallback_moves_every_recognised_file
  (file_list : list (string * option pyval)) (mapdata : pyval)
  (donotuse_mapping : pyval) (normal_mappings : list pyval)
  (log : list (string * string)) :
  load_mappings mapdata = Ok (donotuse_mapping, normal_mappings) ->
  donotuse_mapping <> PNone ->
  sort_files_by_mapdata file_list mapdata = (log, Ok tt) ->
  map fst log = map fst (filter recognised file_list).
Proof.
  intros Hl Hd Hs. unfold sort_files_by_mapdata in Hs. rewrite Hl in Hs.
  apply (sort_loop_all_moved normal_mappings donotuse_mapping) in Hs;
    [exact Hs|].
  intros meta Hc.
  now apply (classify_cases _ _ _ _ (load_mappings_donotuse _ _ _ Hl)) in Hc.
Qed.

Lemma fallback_moves_every_recognised_file_witness :
  map fst [("models/everyone.vrm", "DoNotUse")]
  = map fst
      (filter recognised
         [("models/broken.vrm", None);
          ("models/everyone.vrm",
           Some (PDict [("extensions",
                         PDict [("VRM",
                                 PDict [("meta",
                                         PDict [("allowedUserName",
                                                 PStr "Everyone")])])])]))]).
Proof.
  apply (fallback_moves_every_recognised_file
           [("models/broken.vrm", None);
            ("models/everyone.vrm",
             Some (PDict [("extensions",
                           PDict [("VRM",
                                   PDict [("meta",
                                           PDict [("allowedUserName",
                                                   PStr "Everyone")])])])]))]
           (PDict [("mapdata",
                    PDict [("sorted",
                            PList [PDict [("directory", PStr "folder-1");
                                          ("target",
                                           PDict [("allowedUserName",
                                                   PStr "OnlyAuthor")])];
                                   PDict [("directory", PStr "DoNotUse");
                                          ("target", PDict [])]])])])
           (PDict [("directory", PStr "DoNotUse"); ("target", PDict [])])
           [PDict [("directory", PStr "folder-1");
                   ("target", PDict [("allowedUserName", PStr "OnlyAuthor")])]]
           [("models/everyone.vrm", "DoNotUse")]).
  - reflexivity.
  - discriminate.
  - reflexivity.
Defined.

(** ** mapdata.json preparation *)

Lemma prepared_shape (json_dumps : pyval -> string)
  (set_order : list pyval -> list pyval)
  (file_list : list (string * option pyval)) (mapdata : pyval) :
  prepare_mapdata json_dumps set_order file_list = Prepared mapdata ->
  exists value_dict,
    collect_files json_dumps file_list None [] = inl (Ok value_dict)
    /\ mapdata
       = PDict [("mapdata",
                 PDict [("unsort",
                         PDict [("target",
                                 PDict (unsort_target set_order value_dict))]);
                        ("sorted", sorted_scaffold)])].
Proof.
  unfold prepare_mapdata.
  destruct (collect_files json_dumps file_list None []) as [[vd|e]|[]];
    try discriminate.
  intros [= <-]. now exists vd.
Qed.

(** X16: the record that [prepare_mapdata] writes always has the shape that
    the sorting pass reads: it is structurally valid, its fallback is the
    "DoNotUse" entry, and its rules are the two folders, in that order. *)
Theorem prepared_record_is_well_formed (json_dumps : pyval -> string)
  (set_order : list pyval -> list pyval)
  (file_list : list (string * option pyval)) (mapdata : pyval) :
  prepare_mapdata json_dumps set_order file_list = Prepared mapdata ->
  structurally_valid mapdata = true
  /\ load_mappings mapdata
     = Ok (PDict [("directory", PStr "DoNotUse"); ("target", PDict [])],
           [PDict [("directory", PStr "folder-1"); ("target", PDict [])];
            PDict [("directory", PStr "folder-2"); ("target", PDict [])]]).
Proof.
  intros H. apply prepared_shape in H. destruct H as [vd [_ ->]].
  split; reflexivity.
Qed.

Lemma prepared_record_is_well_formed_witness :
  structurally_valid PrepareExample.mapdata = true
  /\ load_mappings PrepareExample.mapdata
     = Ok (PDict [("directory", PStr "DoNotUse"); ("target", PDict [])],
           [PDict [("directory", PStr "folder-1"); ("target", PDict [])];
            PDict [("directory", PStr "folder-2"); ("target", PDict [])]]).
Proof.
  apply (prepared_record_is_well_formed PrepareExample.json_dumps
           PrepareExample.set_order PrepareExample.file_list).
  reflexivity.
Defined.

Lemma sort_loop_all_fallback (normal_mappings : list pyval)
  (donotuse_mapping : pyval) :
  (forall meta,
      classify meta normal_mappings donotuse_mapping
      = Ok (MovedDoNotUse "DoNotUse")) ->
  forall file_list log0 log,
    sort_loop normal_mappings donotuse_mapping file_list log0 = (log, Ok tt) ->
    log = (log0 ++ map (fun f => (fst f, "DoNotUse"))
                     (filter recognised file_list))%list.
Proof.
  intros Hall. induction file_list as [|[p parsed] rest IH];
    intros log0 log H.
  - injection H as <-. now rewrite app_nil_r.
  - rewrite sort_loop_cons in H. cbn [filter].
    destruct (recognised (p, parsed)); cbn [negb] in H; [|now apply IH].
    destruct (file_meta (VRMFile_load p parsed)) as [meta|e];
      cbn [bind] in H; [|discriminate].
    rewrite Hall in H. rewrite (IH _ _ H). cbn [map fst].
    now rewrite <- app_assoc.
Qed.

(** X17: sorting with a record as [prepare_mapdata] has written it, before
    any rule is filled in, moves every file whose version is detected to
    "DoNotUse" when the pass ends without an exception: the empty targets of
    the two folders match no file. *)
Theorem fresh_mapdata_sends_all_to_DoNotUse (json_dumps : pyval -> string)
  (set_order : list pyval -> list pyval)
  (prepared_files file_list : list (string * option pyval))
  (mapdata : pyval) (log : list (string * string)) :
  prepare_mapdata json_dumps set_order prepared_files = Prepared mapdata ->
  sort_files_by_mapdata file_list mapdata = (log, Ok tt) ->
  log = map (fun f => (fst f, "DoNotUse")) (filter recognised file_list).
Proof.
  intros Hp Hs. apply prepared_shape in Hp. destruct Hp as [vd [_ ->]].
  unfold sort_files_by_mapdata in Hs.
  change (load_mappings _)
    with (Ok (A := pyval * list pyval)
            (PDict [("directory", PStr "DoNotUse"); ("target", PDict [])],
             [PDict [("directory", PStr "folder-1"); ("target", PDict [])];
              PDict [("directory", PStr "folder-2"); ("target", PDict [])]]))
    in Hs.
  cbv iota beta in Hs.
  apply sort_loop_all_fallback in Hs; [exact Hs|].
  intros meta. reflexivity.
Qed.

Lemma fresh_mapdata_sends_all_to_DoNotUse_witness :
  [("a.vrm", "DoNotUse"); ("b.vrm", "DoNotUse"); ("c.vrm", "DoNotUse")]
  = map (fun f => (fst f, "DoNotUse"))
      (filter recognised PrepareExample.file_list).
Proof.
  apply (fresh_mapdata_sends_all_to_DoNotUse PrepareExample.json_dumps
           PrepareExample.set_order PrepareExample.file_list
           PrepareExample.file_list PrepareExample.mapdata);
    reflexivity.
Defined.

Lemma in_keys_In (key : string) (keys : list string) :
  in_keys key keys = true -> In key keys.
Proof.
  unfold in_keys. rewrite existsb_exists.
  intros [k [Hin Hk]]. apply String.eqb_eq in Hk. now subst.
Qed.

Lemma set_add_ok (s : list pyval) (v : pyval) :
  Forall value_ok s -> value_ok v ->
  set_add s v <> [] /\ Forall value_ok (set_add s v).
Proof.
  intros Hs Hv. unfold set_add.
  destruct (existsb (py_same v) s) eqn:E.
  - split; [|exact Hs]. destruct s; [discriminate|discriminate].
  - split; [now destruct s|]. apply Forall_app. split; [exact Hs|].
    now constructor.
Qed.

Lemma value_dict_add_ok (value_dict : list (string * list pyval))
  (key : string) (v : pyval) :
  value_dict_ok value_dict -> In key LICENSE_KEYS -> value_ok v ->
  value_dict_ok (value_dict_add value_dict key v).
Proof.
  intros Hd Hk Hv. induction Hd as [|[k s] r [Hk' [Hne Hs]] Hr IH]; simpl.
  - constructor; [|constructor]. simpl. repeat split; trivial.
    + discriminate.
    + now constructor.
  - destruct (String.eqb key k).
    + constructor; [|exact Hr]. simpl. split; [exact Hk'|].
      now apply set_add_ok.
    + constructor; [|exact IH]. simpl. now repeat split.
Qed.

Lemma value_dict_add_keys (value_dict : list (string * list pyval))
  (key : string) (v : pyval) :
  map fst (value_dict_add value_dict key v)
  = if in_keys key (map fst value_dict) then map fst value_dict
    else (map fst value_dict ++ [key])%list.
Proof.
  induction value_dict as [|[k s] r IH]; [reflexivity|].
  simpl. destruct (String.eqb key k); [reflexivity|].
  simpl. rewrite IH. fold (in_keys key (map fst r)).
  now destruct (in_keys key (map fst r)).
Qed.

Lemma value_dict_add_NoDup (value_dict : list (string * list pyval))
  (key : string) (v : pyval) :
  NoDup (map fst value_dict) ->
  NoDup (map fst (value_dict_add value_dict key v)).
Proof.
  intros H. rewrite value_dict_add_keys.
  destruct (in_keys key (map fst value_dict)) eqn:E; [exact H|].
  apply NoDup_app; [exact H|repeat constructor; intros [] |].
  intros k Hin [Hk | []]. subst k.
  assert (in_keys key (map fst value_dict) = true); [|congruence].
  unfold in_keys. apply existsb_exists. exists key.
  split; [exact Hin|apply String.eqb_refl].
Qed.

Lemma collect_items_ok (json_dumps : pyval -> string) (meta_items : pydict) :
  forall value_dict,
    value_dict_ok value_dict /\ NoDup (map fst value_dict) ->
    value_dict_ok (collect_items json_dumps meta_items value_dict)
    /\ NoDup (map fst (collect_items json_dumps meta_items value_dict)).
Proof.
  unfold collect_items.
  induction meta_items as [|[key value] rest IH]; intros vd [Hd Hn];
    [now split|].
  cbn [fold_left fst snd]. apply IH.
  destruct (in_keys key LICENSE_KEYS) eqn:Ek; cbn [negb]; [|now split].
  destruct (is_none value || py_eq value (PStr "")) eqn:Ev; [now split|].
  apply orb_false_iff in Ev. destruct Ev as [Hnone _].
  split; [|now apply value_dict_add_NoDup].
  apply value_dict_add_ok; [exact Hd|now apply in_keys_In|].
  unfold value_ok, canonicalize.
  destruct value; try discriminate; simpl; split; try reflexivity;
    discriminate.
Qed.

Lemma collect_files_ok (json_dumps : pyval -> string)
  (file_list : list (string * option pyval)) :
  forall meta value_dict value_dict',
    value_dict_ok value_dict /\ NoDup (map fst value_dict) ->
    collect_files json_dumps file_list meta value_dict
    = inl (Ok value_dict') ->
    value_dict_ok value_dict' /\ NoDup (map fst value_dict').
Proof.
  induction file_list as [|[p parsed] rest IH];
    intros meta vd vd' Hok H.
  - injection H as <-. exact Hok.
  - cbn [collect_files] in H.
    destruct (truthy (json_data (VRMFile_load p parsed)));
      [|exact (IH _ _ _ Hok H)].
    destruct (if py_eq (vrm_version (VRMFile_load p parsed)) (PStr "0.x")
                 || py_eq (vrm_version (VRMFile_load p parsed)) (PStr "1.0")
              then match file_meta (VRMFile_load p parsed) with
                   | Ok m => Ok (Some m)
                   | Raise e => Raise e
                   end
              else Ok meta) as [[m|]|e]; try discriminate.
    destruct (items m) as [its|e]; [|discriminate].
    apply (IH _ _ _ (collect_items_ok json_dumps its vd Hok) H).
Qed.

(** X18: in the record that [prepare_mapdata] writes, every key of the
    unsorted target is a license key and appears once; its value is never
    [None] and never an empty list: a single value that can be hashed, or a
    list of at least two such values. *)
Theorem unsorted_target_invariant (json_dumps : pyval -> string)
  (set_order : list pyval -> list pyval)
  (file_list : list (string * option pyval)) (mapdata : pyval) :
  (forall l, Permutation (set_order l) l) ->
  prepare_mapdata json_dumps set_order file_list = Prepared mapdata ->
  exists target,
    mapdata
    = PDict [("mapdata",
              PDict [("unsort", PDict [("target", PDict target)]);
                     ("sorted", sorted_scaffold)])]
    /\ NoDup (map fst target)
    /\ forall key value, In (key, value) target ->
         In key LICENSE_KEYS
         /\ ((hashable value = true /\ value <> PNone)
             \/ exists l,
                 value = PList l
                 /\ 2 <= List.length l
                 /\ forall x, In x l -> hashable x = true /\ x <> PNone).
Proof.
  intros Hperm H. apply prepared_shape in H.
  destruct H as [vd [Hc ->]].
  apply (collect_files_ok json_dumps file_list None [] vd) in Hc;
    [|split; constructor].
  destruct Hc as [Hok Hnd].
  exists (unsort_target set_order vd). split; [reflexivity|]. split.
  - unfold unsort_target. rewrite map_map.
    erewrite map_ext; [exact Hnd|].
    intros [k s]. simpl. now destruct (set_order s) as [|? [|? ?]].
  - intros key value Hin. unfold unsort_target in Hin.
    apply in_map_iff in Hin. destruct Hin as [[k s] [Heq Hin]].
    unfold value_dict_ok in Hok. rewrite Forall_forall in Hok.
    destruct (Hok _ Hin) as [Hk [Hne Hs]]. simpl in Hk, Hne, Hs, Heq.
    assert (Hs' : Forall value_ok (set_order s)).
    { rewrite Forall_forall in *. intros x Hx. apply Hs.
      now apply (Permutation_in _ (Hperm s)). }
    assert (Hlen : List.length (set_order s) = List.length s)
      by apply Permutation_length, Hperm.
    destruct (set_order s) as [|v [|w l]] eqn:Eo.
    + destruct s; [contradiction|discriminate].
    + injection Heq as <- <-. split; [exact Hk|]. left.
      now inversion Hs'.
    + injection Heq as <- <-. split; [exact Hk|]. right.
      exists (v :: w :: l). split; [reflexivity|]. split; [simpl; lia|].
      intros x Hx. rewrite Forall_forall in Hs'. now apply Hs'.
Qed.

Lemma unsorted_target_invariant_witness :
  exists target,
    PrepareExample.mapdata
    = PDict [("mapdata",
              PDict [("unsort", PDict [("target", PDict target)]);
                     ("sorted", sorted_scaffold)])]
    /\ NoDup (map fst target)
    /\ forall key value, In (key, value) target ->
         In key LICENSE_KEYS
         /\ ((hashable value = true /\ value <> PNone)
             \/ exists l,
                 value = PList l
                 /\ 2 <= List.length l
                 /\ forall x, In x l -> hashable x = true /\ x <> PNone).
Proof.
  apply (unsorted_target_invariant PrepareExample.json_dumps
           PrepareExample.set_order PrepareExample.file_list).
  - intros l. apply Permutation_refl.
  - reflexivity.
Defined.

Lemma collect_files_unloaded (json_dumps : pyval -> string)
  (before rest : list (string * option pyval)) :
  (forall f, In f before ->
     truthy (json_data (VRMFile_load (fst f) (snd f))) = false) ->
  forall meta value_dict,
    collect_files json_dumps (before ++ rest) meta value_dict
    = collect_files json_dumps rest meta value_dict.
Proof.
  induction before as [|[p parsed] before IH]; intros H meta vd;
    [reflexivity|].
  cbn [app collect_files].
  pose proof (H (p, parsed) (or_introl eq_refl)) as Hp.
  cbn [fst snd] in Hp. rewrite Hp.
  apply IH. intros f Hf. apply H. now right.
Qed.

(** X19: when the first file that loads with JSON data has no detected
    version, [prepare_mapdata] reads its local variable [meta] before any
    assignment and ends there, whatever files follow. *)
Theorem prepare_unbound_meta (json_dumps : pyval -> string)
  (set_order : list pyval -> list pyval)
  (before rest : list (string * option pyval))
  (filepath : string) (j : pyval) (e : exn) :
  (forall f, In f before ->
     truthy (json_data (VRMFile_load (fst f) (snd f))) = false) ->
  truthy j = true ->
  detect_version j = Raise e ->
  prepare_mapdata json_dumps set_order (before ++ (filepath, Some j) :: rest)
  = UnboundLocalError.
Proof.
  intros Hb Hj Hd. unfold prepare_mapdata.
  rewrite (collect_files_unloaded json_dumps before _ Hb).
  cbn [collect_files]. unfold VRMFile_load. rewrite Hd. cbn [json_data vrm_version].
  rewrite Hj. reflexivity.
Qed.

Lemma prepare_unbound_meta_witness :
  prepare_mapdata PrepareExample.json_dumps PrepareExample.set_order
    ([("broken.vrm", None)]
     ++ ("scene.glb", Some (PDict [("asset", PDict [("version", PStr "2.0")])]))
     :: PrepareExample.file_list)
  = UnboundLocalError.
Proof.
  apply (prepare_unbound_meta PrepareExample.json_dumps
           PrepareExample.set_order [("broken.vrm", None)]
           PrepareExample.file_list "scene.glb"
           (PDict [("asset", PDict [("version", PStr "2.0")])]) ValueError).
  - intros f [<-|[]]. reflexivity.
  - reflexivity.
  - reflexivity.
Defined.

Lemma collect_files_skip (json_dumps : pyval -> string)
  (before : list (string * option pyval)) (filepath : string)
  (parsed : option pyval) (rest : list (string * option pyval)) :
  truthy (json_data (VRMFile_load filepath parsed)) = false ->
  forall meta value_dict,
    collect_files json_dumps (before ++ (filepath, parsed) :: rest) meta
      value_dict
    = collect_files json_dumps (before ++ rest) meta value_dict.
Proof.
  intros Hf. induction before as [|[p pa] before IH]; intros meta vd.
  - cbn [app collect_files]. now rewrite Hf.
  - cbn [app collect_files].
    destruct (truthy (json_data (VRMFile_load p pa))); [|apply IH].
    destruct (if py_eq (vrm_version (VRMFile_load p pa)) (PStr "0.x")
                 || py_eq (vrm_version (VRMFile_load p pa)) (PStr "1.0")
              then match file_meta (VRMFile_load p pa) with
                   | Ok m => Ok (Some m)
                   | Raise e => Raise e
                   end
              else Ok meta) as [[m|]|e]; try reflexivity.
    destruct (items m); [apply IH|reflexivity].
Qed.

(** X20: a file that does not load, or loads with empty JSON data,
    contributes nothing to the record that [prepare_mapdata] writes: the
    result is the result without the file. *)
Theorem prepare_ignores_unloaded_file (json_dumps : pyval -> string)
  (set_order : list pyval -> list pyval)
  (before rest : list (string * option pyval))
  (filepath : string) (parsed : option pyval) :
  truthy (json_data (VRMFile_load filepath parsed)) = false ->
  prepare_mapdata json_dumps set_order (before ++ (filepath, parsed) :: rest)
  = prepare_mapdata json_dumps set_order (before ++ rest).
Proof.
  intros Hf. unfold prepare_mapdata.
  now rewrite (collect_files_skip json_dumps before filepath parsed rest Hf).
Qed.

Lemma prepare_ignores_unloaded_file_witness :
  prepare_mapdata PrepareExample.json_dumps PrepareExample.set_order
    ([("a.vrm", PrepareExample.vrm1 "personalNonProfit")]
     ++ ("broken.vrm", None)
     :: [("b.vrm", PrepareExample.vrm1 "corporation")])
  = prepare_mapdata PrepareExample.json_dumps PrepareExample.set_order
      ([("a.vrm", PrepareExample.vrm1 "personalNonProfit")]
       ++ [("b.vrm", PrepareExample.vrm1 "corporation")]).
Proof.
  apply prepare_ignores_unloaded_file. reflexivity.
Defined.

(** ** Conditions, again *)

Lemma existsb_permutation {A : Type} (f : A -> bool) (l l' : list A) :
  Permutation l l' -> existsb f l = existsb f l'.
Proof.
  induction 1 as [|x l l' _ IH|x y l|l l' l'' _ IH1 _ IH2]; simpl.
  - reflexivity.
  - now rewrite IH.
  - now destruct (f x), (f y).
  - now rewrite IH1.
Qed.

Lemma forallb_permutation {A : Type} (f : A -> bool) (l l' : list A) :
  Permutation l l' -> forallb f l = forallb f l'.
Proof.
  induction 1 as [|x l l' _ IH|x y l|l l' l'' _ IH1 _ IH2]; simpl.
  - reflexivity.
  - now rewrite IH.
  - now destruct (f x), (f y).
  - now rewrite IH1.
Qed.

(** X21: the order in which a target lists its conditions does not matter:
    two mappings whose targets hold the same conditions in another order
    match the same files, although the loop leaves at the first condition
    that fails. *)
Theorem condition_order_irrelevant (md m m' t t' : pydict) :
  dict_get m "target" (PDict []) = PDict t ->
  dict_get m' "target" (PDict []) = PDict t' ->
  Permutation t t' ->
  all_match (PDict md) (PDict m) = all_match (PDict md) (PDict m').
Proof.
  intros Ht Ht' Hp.
  rewrite (all_match_dict md m t Ht), (all_match_dict md m' t' Ht').
  unfold any_present, conditions_hold.
  now rewrite (existsb_permutation _ _ _ Hp), (forallb_permutation _ _ _ Hp).
Qed.

Lemma condition_order_irrelevant_witness :
  all_match FirstMatchExample.meta FirstMatchExample.rule_b
  = all_match FirstMatchExample.meta
      (PDict [("directory", PStr "b");
              ("target", PDict [("licenseName", PStr "CC0");
                                ("commercialUssageName", PStr "Allow")])]).
Proof.
  apply (condition_order_irrelevant
           [("commercialUssageName", PStr "Allow");
            ("licenseName", PStr "CC0")]
           [("directory", PStr "b");
            ("target", PDict [("commercialUssageName", PStr "Allow");
                              ("licenseName", PStr "CC0")])]
           [("directory", PStr "b");
            ("target", PDict [("licenseName", PStr "CC0");
                              ("commercialUssageName", PStr "Allow")])]
           [("commercialUssageName", PStr "Allow");
            ("licenseName", PStr "CC0")]
           [("licenseName", PStr "CC0");
            ("commercialUssageName", PStr "Allow")]
           eq_refl eq_refl).
  apply perm_swap.
Defined.

(** X22: a mapping that has a condition on a key whose value in the file is
    [null] does not match the file, whatever the expected value and the other
    conditions are. *)
Theorem null_value_never_matches (md m t : pydict) (key : string)
  (mapping_value : pyval) :
  dict_get m "target" (PDict []) = PDict t ->
  In (key, mapping_value) t ->
  lookup md key = Some PNone ->
  all_match (PDict md) (PDict m) = Ok false.
Proof.
  intros Ht Hin Hk. rewrite (all_match_dict md m t Ht).
  assert (Hc : conditions_hold md t = false).
  { destruct (conditions_hold md t) eqn:E; [|reflexivity].
    destruct (proj1 (conditions_hold_spec md t) E key mapping_value PNone
                Hin Hk) as [Hne _].
    now elim Hne. }
  now rewrite Hc, andb_false_r.
Qed.

Lemma null_value_never_matches_witness :
  all_match (PDict [("licenseName", PNone)])
    (PDict [("directory", PStr "folder-1");
            ("target", PDict [("licenseName", PList [PNone; PStr "CC0"])])])
  = Ok false.
Proof.
  apply (null_value_never_matches
           [("licenseName", PNone)]
           [("directory", PStr "folder-1");
            ("target", PDict [("licenseName", PList [PNone; PStr "CC0"])])]
           [("licenseName", PList [PNone; PStr "CC0"])]
           "licenseName" (PList [PNone; PStr "CC0"]) eq_refl).
  - now left.
  - reflexivity.
Defined.

(** X23: a normalized string is in normal form: it has no white space at
    either end and no capital letter, and it is neither "true" nor "false",
    which become booleans. *)
Theorem normalized_string_form (value : pyval) (v : string) :
  normalize_for_compare value = PStr v ->
  PyStr.strip v = v /\ PyStr.lower v = v /\ v <> "true" /\ v <> "false".
Proof.
  destruct value as [| | | |s| |]; try discriminate.
  - rewrite normalize_str.
    destruct (String.eqb_spec (PyStr.lower (PyStr.strip s)) "true")
      as [|Ht]; [discriminate|].
    destruct (String.eqb_spec (PyStr.lower (PyStr.strip s)) "false")
      as [|Hf]; [discriminate|].
    intros [= <-]. repeat split; trivial.
    + now rewrite PyStrFacts.strip_lower, PyStrFacts.strip_idem.
    + apply PyStrFacts.lower_idem.
Qed.

Lemma normalized_string_form_witness :
  PyStr.strip "cc by-nc" = "cc by-nc" /\ PyStr.lower "cc by-nc" = "cc by-nc"
  /\ "cc by-nc" <> "true" /\ "cc by-nc" <> "false".
Proof.
  apply (normalized_string_form (PStr "  CC BY-NC ")). reflexivity.
Defined.

(** ** When the adapters fail *)

Lemma all_str_ok (l : list pyval) :
  forallb is_str l = true -> exists ss, all_str l = Ok ss.
Proof.
  induction l as [|x l IH]; [now exists []|].
  simpl. destruct x; try discriminate. simpl. intros H.
  destruct (IH H) as [ss ->]. now eexists.
Qed.

Lemma all_str_raises (l : list pyval) :
  forallb is_str l = false -> all_str l = Raise TypeError.
Proof.
  induction l as [|x l IH]; [discriminate|].
  simpl. destruct x; try reflexivity. simpl. intros H.
  now rewrite (IH H).
Qed.

(** X24: the VRM 1.0 adapter fails only on the authors.  Without an
    [authors] key it returns a record; with a list of authors it returns a
    record when every author is a string and raises [TypeError] when one is
    not. *)
Theorem VRM1_fails_only_on_authors (md : pydict) (file_name : string) :
  (lookup md "authors" = None ->
   exists info, VRM1Meta_get_license_info (PDict md) file_name = Ok info)
  /\ forall l,
      lookup md "authors" = Some (PList l) ->
      (forallb is_str l = true ->
       exists info, VRM1Meta_get_license_info (PDict md) file_name = Ok info)
      /\ (forallb is_str l = false ->
          VRM1Meta_get_license_info (PDict md) file_name = Raise TypeError).
Proof.
  unfold VRM1Meta_get_license_info. cbn [get bind]. split.
  - intros H. rewrite (dict_get_absent _ _ _ H). now eexists.
  - intros l H.
    assert (Ha : dict_get md "authors" (PList [PStr "--"]) = PList l)
      by (unfold dict_get; now rewrite H).
    rewrite Ha. unfold str_join. cbn [iterate bind]. split; intros Hl.
    + destruct (all_str_ok l Hl) as [ss ->]. now eexists.
    + now rewrite (all_str_raises l Hl).
Qed.

Lemma VRM1_fails_only_on_authors_witness :
  VRM1Meta_get_license_info
    (PDict [("name", PStr "Avatar");
            ("authors", PList [PStr "Alice"; PInt 7])]) "avatar.vrm"
  = Raise TypeError.
Proof.
  apply (proj2 (VRM1_fails_only_on_authors
                  [("name", PStr "Avatar");
                   ("authors", PList [PStr "Alice"; PInt 7])] "avatar.vrm")
           [PStr "Alice"; PInt 7]);
    reflexivity.
Defined.

Lemma all_chars_lstrip_c0 (p : ascii -> bool) (s : string) :
  all_chars p s = true -> all_chars p (lstrip_c0 s) = true.
Proof.
  induction s as [|c r IH]; [reflexivity|].
  intros H. cbn [lstrip_c0]. destruct (c0_control_or_space c); [|exact H].
  apply IH. simpl in H. now apply andb_true_iff in H.
Qed.

Lemma all_chars_remove_char (p : ascii -> bool) (c : ascii) (s : string) :
  all_chars p s = true -> all_chars p (PyStr.remove_char c s) = true.
Proof.
  induction s as [|d r IH]; [reflexivity|].
  cbn [all_chars PyStr.remove_char]. intros H.
  apply andb_true_iff in H. destruct H as [Hd Hr].
  destruct (Ascii.eqb d c); [now apply IH|].
  cbn [all_chars]. now rewrite Hd, IH.
Qed.

Lemma all_chars_split1 (p : ascii -> bool) (c : ascii) (s a b : string) :
  PyStr.split1 c s = Some (a, b) -> all_chars p s = true ->
  all_chars p a = true /\ all_chars p b = true.
Proof.
  revert a. induction s as [|d r IH]; intros a; [discriminate|].
  cbn [PyStr.split1 all_chars]. intros H Hs.
  apply andb_true_iff in Hs. destruct Hs as [Hd Hr].
  destruct (Ascii.eqb d c).
  - injection H as <- <-. now split.
  - destruct (PyStr.split1 c r) as [[a' b']|]; [|discriminate].
    injection H as <- <-. destruct (IH a' eq_refl Hr) as [Ha Hb].
    split; [|exact Hb]. cbn [all_chars]. now rewrite Hd, Ha.
Qed.

Lemma all_chars_strip_scheme (p : ascii -> bool) (s : string) :
  all_chars p s = true -> all_chars p (strip_scheme s) = true.
Proof.
  intros H. unfold strip_scheme.
  destruct (PyStr.split1 ":" s) as [[a b]|] eqn:E; [|exact H].
  destruct a as [|c0 pre]; [exact H|].
  destruct (ascii_alpha c0 && all_chars scheme_char (String c0 pre));
    [|exact H].
  now destruct (all_chars_split1 p _ _ _ _ E H).
Qed.

Lemma all_chars_splitnetloc (p : ascii -> bool) (s : string) :
  all_chars p s = true ->
  all_chars p (fst (splitnetloc s)) = true
  /\ all_chars p (snd (splitnetloc s)) = true.
Proof.
  induction s as [|c r IH]; [now split|].
  intros H. cbn [splitnetloc].
  destruct (Ascii.eqb c "/" || Ascii.eqb c "?" || Ascii.eqb c "#");
    [now split|].
  cbn [all_chars] in H. apply andb_true_iff in H. destruct H as [Hc Hr].
  destruct (IH Hr) as [H1 H2]. destruct (splitnetloc r) as [n rest].
  cbn [fst snd all_chars] in *. now rewrite Hc, H1, H2.
Qed.

Lemma plain_no_bracket (s : string) :
  all_chars plain_char s = true ->
  PyStr.has_char "[" s = false /\ PyStr.has_char "]" s = false
  /\ isascii s = true.
Proof.
  unfold isascii. induction s as [|c r IH]; [now repeat split|].
  cbn [all_chars PyStr.has_char]. intros H.
  apply andb_true_iff in H. destruct H as [Hc Hr].
  destruct (IH Hr) as [H1 [H2 H3]]. rewrite H1, H2, H3.
  unfold plain_char in Hc.
  apply andb_true_iff in Hc. destruct Hc as [Hc Hrb].
  apply andb_true_iff in Hc. destruct Hc as [Ha Hlb].
  rewrite Ha. rewrite (Ascii.eqb_sym "[" c), (Ascii.eqb_sym "]" c).
  apply negb_true_iff in Hlb, Hrb. now rewrite Hlb, Hrb.
Qed.

Lemma netloc_step_plain (check_bracketed_netloc : string -> bool)
  (u : string) :
  all_chars plain_char u = true ->
  exists netloc rest,
    match u with
    | String "/" (String "/" after) =>
        let (netloc, rest) := splitnetloc after in
        let lb := PyStr.has_char "[" netloc in
        let rb := PyStr.has_char "]" netloc in
        if (lb && negb rb) || (rb && negb lb) then Raise ValueError
        else if lb && rb && negb (check_bracketed_netloc netloc)
             then Raise ValueError
             else Ok (netloc, rest)
    | _ => Ok (EmptyString, u)
    end = Ok (netloc, rest)
    /\ isascii netloc = true.
Proof.
  intros Hu.
  destruct u as [|c1 u]; [now exists "", ""|].
  destruct c1 as [[] [] [] [] [] [] [] []];
    try (now eexists; eexists; split; [reflexivity|]).
  destruct u as [|c2 u]; [now eexists; eexists; split; [reflexivity|]|].
  destruct c2 as [[] [] [] [] [] [] [] []];
    try (now eexists; eexists; split; [reflexivity|]).
  cbn [all_chars] in Hu. apply andb_true_iff in Hu. destruct Hu as [_ Hu].
  apply andb_true_iff in Hu. destruct Hu as [_ Hu].
  destruct (all_chars_splitnetloc plain_char u Hu) as [Hn _].
  destruct (splitnetloc u) as [netloc rest]. cbn [fst] in Hn.
  destruct (plain_no_bracket netloc Hn) as [Hl [Hr Ha]].
  exists netloc, rest. rewrite Hl, Hr. now split.
Qed.

Lemma plain_url_query (check_bracketed_netloc checknetloc : string -> bool)
  (url : string) :
  all_chars plain_char url = true ->
  exists query,
    urlsplit_query check_bracketed_netloc checknetloc url = Ok query.
Proof.
  intros H. unfold urlsplit_query. cbv zeta.
  set (u := strip_scheme _).
  assert (Hu : all_chars plain_char u = true)
    by (unfold u; now apply all_chars_strip_scheme, all_chars_remove_char,
          all_chars_remove_char, all_chars_remove_char, all_chars_lstrip_c0).
  clearbody u.
  destruct (netloc_step_plain check_bracketed_netloc u Hu)
    as [netloc [rest [E Ha]]].
  cbv zeta in E. rewrite E.
  cbn [bind]. rewrite Ha, orb_true_r. now eexists.
Qed.

(** X25: the VRM 0.x adapter returns a record for every meta object whose
    [otherPermissionUrl] is missing, empty, or a string of ASCII characters
    without brackets: only a value that is not a string, or a host that the
    library refuses, makes it fail. *)
Theorem legacy_adapter_plain_url
  (percent_decode : string -> string)
  (check_bracketed_netloc checknetloc : string -> bool)
  (md : pydict) (file_name : string) :
  match lookup md "otherPermissionUrl" with
  | None => True
  | Some (PStr url) => all_chars plain_char url = true
  | Some v => truthy v = false
  end ->
  exists info,
    VRM0xMeta_get_license_info percent_decode check_bracketed_netloc
      checknetloc (PDict md) file_name = Ok info.
Proof.
  intros H. unfold VRM0xMeta_get_license_info. cbn [get bind].
  assert (Hr : exists r,
             (if truthy (dict_get md "otherPermissionUrl" (PStr ""))
              then query <- urlparse_query check_bracketed_netloc checknetloc
                              (dict_get md "otherPermissionUrl" (PStr "")) ;;
                   first (qs_get (parse_qs percent_decode query)
                            "redistribution" ["--"])
              else Ok "--") = Ok r).
  { unfold dict_get. destruct (lookup md "otherPermissionUrl") as [v|];
      [|now eexists].
    destruct (truthy v) eqn:Et; [|now eexists].
    destruct v as [| | | |url| |]; try discriminate.
    cbn [urlparse_query].
    destruct (plain_url_query check_bracketed_netloc checknetloc url H)
      as [query ->].
    cbn [bind]. rewrite parse_qs_first. now eexists. }
  destruct Hr as [r ->]. cbn [bind]. now eexists.
Qed.

Lemma legacy_adapter_plain_url_witness :
  exists info,
    VRM0xMeta_get_license_info LegacyExample.percent_decode
      LegacyExample.accept LegacyExample.accept (PDict LegacyExample.meta)
      "avatar.vrm" = Ok info.
Proof.
  apply legacy_adapter_plain_url. reflexivity.
Defined.
